(** * AladinGemini: the search / recommend / match pipeline of [app.py]

    A shallow embedding of the pure logic of [src/aladin_reco/app.py]:
    the catalog detail lookup, the catalog search, the recommendation
    parser, the candidate matcher and the workflow orchestrator.

    Python [str] values are sequences of Unicode code points; they are
    modelled as [list N].  Exceptions are modelled with a [result] type.
    The network (two catalog endpoints and the generative service) is an
    explicit [world] argument. *)

From Stdlib Require Import List NArith ZArith Bool Lia.
From Stdlib Require Import Strings.String Strings.Ascii.
From Stdlib Require Strings.Byte QArith_base.
Import ListNotations.

Set Implicit Arguments.

(** ** Python strings as code-point lists *)

Module PyStr.

Definition pystr := list N.

(** An ASCII literal as a Python string. *)
Fixpoint of_string (s : string) : pystr :=
  match s with
  | EmptyString => []
  | String c s' => N_of_ascii c :: of_string s'
  end.

(** [s.startswith(p)] *)
Fixpoint startswith (s p : pystr) {struct p} : bool :=
  match p with
  | [] => true
  | x :: p' =>
      match s with
      | [] => false
      | y :: s' => N.eqb x y && startswith s' p'
      end
  end.

(** [needle in hay] *)
Fixpoint contains (needle hay : pystr) : bool :=
  startswith hay needle ||
  match hay with
  | [] => false
  | _ :: hay' => contains needle hay'
  end.

(** [str.isspace] on one code point: the set used by [str.strip()]. *)
Definition isspace (c : N) : bool :=
  ((9 <=? c) && (c <=? 13) || (28 <=? c) && (c <=? 32) ||
   (c =? 133) || (c =? 160) || (c =? 5760) ||
   (8192 <=? c) && (c <=? 8202) || (c =? 8232) || (c =? 8233) ||
   (c =? 8239) || (c =? 8287) || (c =? 12288))%N.

Fixpoint lstrip (s : pystr) : pystr :=
  match s with
  | [] => []
  | c :: s' => if isspace c then lstrip s' else s
  end.

Definition rstrip (s : pystr) : pystr := rev (lstrip (rev s)).

(** [s.strip()] *)
Definition strip (s : pystr) : pystr := rstrip (lstrip s).

(** Line boundaries of [str.splitlines]. *)
Definition is_linebreak (c : N) : bool :=
  ((10 <=? c) && (c <=? 13) || (28 <=? c) && (c <=? 30) ||
   (c =? 133) || (c =? 8232) || (c =? 8233))%N.

Definition LF : N := 10%N.
Definition CR : N := 13%N.

(** [s.splitlines()]: a line ends at a line boundary, CR LF counts as one
    boundary, and a final boundary opens no further line. *)
Fixpoint splitlines (s : pystr) : list pystr :=
  match s with
  | [] => []
  | c :: rest =>
      if is_linebreak c then
        [] :: match rest with
              | d :: rest' =>
                  if (c =? CR)%N && (d =? LF)%N then splitlines rest'
                  else splitlines rest
              | [] => []
              end
      else
        match splitlines rest with
        | [] => [[c]]
        | l :: ls => (c :: l) :: ls
        end
  end.

(** [sep.join(parts)] *)
Fixpoint join (sep : pystr) (parts : list pystr) : pystr :=
  match parts with
  | [] => []
  | [p] => p
  | p :: ps => p ++ sep ++ join sep ps
  end.

(** [s.replace(old, "")] scans left to right; [skip] counts the code
    points of an occurrence of [old] that are still to be dropped. *)
Fixpoint remove_go (old : pystr) (skip : nat) (s : pystr) : pystr :=
  match s with
  | [] => []
  | c :: rest =>
      match skip with
      | S k => remove_go old k rest
      | O =>
          if startswith s old then remove_go old (List.length old - 1) rest
          else c :: remove_go old 0 rest
      end
  end.

Definition remove_all (old s : pystr) : pystr :=
  match old with
  | [] => s
  | _ :: _ => remove_go old 0 s
  end.

(** Python truthiness of an [Optional[str]]: [None] and [""] are falsy. *)
Definition truthy (o : option pystr) : bool :=
  match o with
  | Some (_ :: _) => true
  | _ => false
  end.

End PyStr.

Import PyStr.

(** [str(n)] for an integer. *)
Fixpoint str_of_uint (d : Decimal.uint) : pystr :=
  match d with
  | Decimal.Nil => []
  | Decimal.D0 d' => 48%N :: str_of_uint d'
  | Decimal.D1 d' => 49%N :: str_of_uint d'
  | Decimal.D2 d' => 50%N :: str_of_uint d'
  | Decimal.D3 d' => 51%N :: str_of_uint d'
  | Decimal.D4 d' => 52%N :: str_of_uint d'
  | Decimal.D5 d' => 53%N :: str_of_uint d'
  | Decimal.D6 d' => 54%N :: str_of_uint d'
  | Decimal.D7 d' => 55%N :: str_of_uint d'
  | Decimal.D8 d' => 56%N :: str_of_uint d'
  | Decimal.D9 d' => 57%N :: str_of_uint d'
  end.

Definition str_of_int (n : Z) : pystr :=
  match Z.to_int n with
  | Decimal.Pos d => str_of_uint d
  | Decimal.Neg d => 45%N :: str_of_uint d
  end.

(** ** Exceptions *)

Inductive exn : Type :=
| BookSearchError (msg : pystr)
| RecommendationError (msg : pystr)
| ValueError
| AttributeError
| TypeError.

Inductive result (A : Type) : Type :=
| Ok (a : A)
| Raise (e : exn).

Arguments Ok {A} a.
Arguments Raise {A} e.

Definition bind {A B : Type} (r : result A) (k : A -> result B) : result B :=
  match r with
  | Ok a => k a
  | Raise e => Raise e
  end.

Notation "x <- c ;; k" := (bind c (fun x => k))
  (at level 61, c at next level, right associativity).

(** A [for] loop that appends one value per element and stops at the
    first exception. *)
Fixpoint for_each {A B : Type} (f : A -> result B) (l : list A)
  : result (list B) :=
  match l with
  | [] => Ok []
  | x :: l' => y <- f x ;; ys <- for_each f l' ;; Ok (y :: ys)
  end.

(** ** XML documents, as [xml.etree.ElementTree] presents them *)

(** [tag] is the qualified name in ElementTree's [{uri}local] form;
    [text] is [None] for an element without character data. *)
#[warnings="-register-all"]
Inductive element : Type :=
| Element (tag : string) (text : option pystr) (children : list element).

Definition tag (e : element) : string := let (t, _, _) := e in t.
Definition text (e : element) : option pystr := let (_, x, _) := e in x.
Definition children (e : element) : list element := let (_, _, c) := e in c.

Definition aladin_ns : string := "http://www.aladin.co.kr/ttb/apiguide.aspx".

(** The path [name] under [ns = {'': aladin_ns}]. *)
Definition qualified (name : string) : string :=
  ("{" ++ aladin_ns ++ "}" ++ name)%string.

(** [e.find(name, ns)]: the first direct child with that tag. *)
Definition find (name : string) (e : element) : option element :=
  List.find (fun c => String.eqb (tag c) (qualified name)) (children e).

(** [e.findall(name, ns)]: the direct children with that tag, in
    document order. *)
Definition findall (name : string) (e : element) : list element :=
  List.filter (fun c => String.eqb (tag c) (qualified name)) (children e).

(** ** The outside world *)

(** What [requests.get], [raise_for_status] and [ET.fromstring] together
    yield: a [requests.exceptions.RequestException], an [ET.ParseError]
    (each with its [str(e)]), or the parsed root. *)
Inductive xml_reply : Type :=
| RequestException (cause : pystr)
| ParseError (cause : pystr)
| Document (root : element).

(** What [model.generate_content(prompt)] followed by [response.text]
    yields: some exception with its [str(e)], or the text. *)
Inductive gen_reply : Type :=
| GenerateFailed (cause : pystr)
| Generated (response_text : pystr).

Record world : Type := {
  (** ItemLookUp.aspx, by [itemId] and [ItemIdType] *)
  item_lookup : pystr -> pystr -> xml_reply;
  (** ItemSearch.aspx, by [Query] and [MaxResults] *)
  item_search : pystr -> Z -> xml_reply;
  (** the generative model, by prompt *)
  generate_content : pystr -> gen_reply
}.

(** ** Literals of [app.py] *)

(** "별점 정보 없음" *)
Definition no_rating : pystr :=
  [48324; 51216; 32; 51221; 48372; 32; 50630; 51020]%N.
(** "제목 없음" *)
Definition no_title : pystr := [51228; 47785; 32; 50630; 51020]%N.
(** "저자 없음" *)
Definition no_author : pystr := [51200; 51088; 32; 50630; 51020]%N.
(** "설명 없음" *)
Definition no_description : pystr := [49444; 47749; 32; 50630; 51020]%N.
(** "추천 도서:" *)
Definition title_marker : pystr := [52628; 52380; 32; 46020; 49436; 58]%N.
(** "추천 이유:" *)
Definition reason_marker : pystr := [52628; 52380; 32; 51060; 50976; 58]%N.
(** " / 10.0" *)
Definition out_of_10_0 : pystr := of_string " / 10.0".
(** " / 10" *)
Definition out_of_10 : pystr := of_string " / 10".
(** "ISBN13" *)
Definition ISBN13 : pystr := of_string "ISBN13".
(** "알라딘 서버와 통신 중 오류가 발생했습니다: " *)
Definition network_error_msg : pystr :=
  [50508; 46972; 46360; 32; 49436; 48260; 50752; 32; 53685; 49888; 32;
   51473; 32; 50724; 47448; 44032; 32; 48156; 49373; 54664; 49845; 45768;
   45796; 58; 32]%N.
(** "알라딘 서버의 응답을 처리하는 데 실패했습니다: " *)
Definition parse_error_msg : pystr :=
  [50508; 46972; 46360; 32; 49436; 48260; 51032; 32; 51025; 45813; 51012;
   32; 52376; 47532; 54616; 45716; 32; 45936; 32; 49892; 54056; 54664;
   49845; 45768; 45796; 58; 32]%N.
(** "AI 추천 생성 중 오류가 발생했습니다: " *)
Definition generate_error_msg : pystr :=
  [65; 73; 32; 52628; 52380; 32; 49373; 49457; 32; 51473; 32; 50724;
   47448; 44032; 32; 48156; 49373; 54664; 49845; 45768; 45796; 58; 32]%N.
(** "오류가 발생했습니다: " *)
Definition error_msg : pystr :=
  [50724; 47448; 44032; 32; 48156; 49373; 54664; 49845; 45768; 45796; 58;
   32]%N.

(** [CONFIG["gemini"]["prompt"]], cut at its two fields: the text before
    [{user_query}], between the fields, and after [{book_list_str}]. *)
Definition prompt_head : pystr :=
  [45817; 49888; 51008; 32; 49324; 50857; 51088; 51032; 32; 49345; 54889;
   44284; 32; 44048; 51221; 51012; 32; 44618; 51060; 32; 51060; 54644;
   54616; 44256; 32; 44277; 44048; 54644; 51452; 45716; 32; 51204; 47928;
   32; 48513; 32; 53328; 47112; 51060; 53552; 51077; 45768; 45796; 46; 10;
   49324; 50857; 51088; 51032; 32; 50836; 52397; 58; 32; 34]%N.
Definition prompt_mid : pystr :=
  [34; 10; 10; 50500; 47000; 45716; 32; 51060; 32; 50836; 52397; 44284;
   32; 44288; 47144; 54616; 50668; 32; 52286; 51008; 32; 52293; 32; 47785;
   47197; 51077; 45768; 45796; 46; 10; 45; 45; 45; 32; 52293; 32; 47785;
   47197; 32; 45; 45; 45; 10]%N.
Definition prompt_tail : pystr :=
  [10; 45; 45; 45; 32; 52293; 32; 47785; 47197; 32; 45149; 32; 45; 45; 45;
   10; 10; 49324; 50857; 51088; 51032; 32; 50836; 52397; 50640; 32; 44032;
   51109; 32; 51096; 32; 47582; 45716; 32; 52293; 51012; 32; 45800; 32;
   54620; 32; 44428; 47564; 32; 44264; 46972; 51452; 49464; 50836; 46; 10;
   52628; 52380; 54616; 45716; 32; 51060; 50976; 47484; 32; 49324; 50857;
   51088; 44032; 32; 46384; 46907; 54620; 32; 50948; 47196; 50752; 32;
   44277; 44048; 51012; 32; 50619; 51012; 32; 49688; 32; 51080; 46020;
   47197; 32; 49; 53; 48; 51088; 32; 45236; 50808; 51032; 32; 51652;
   49900; 32; 50612; 47536; 32; 47928; 51109; 51004; 47196; 32; 49444;
   47749; 54644; 51452; 49464; 50836; 46; 10; 52636; 47141; 32; 54805;
   49885; 51008; 32; 48152; 46300; 49884; 32; 50500; 47000; 50752; 32;
   44057; 51060; 32; 47582; 52656; 51452; 49464; 50836; 58; 10; 10; 52628;
   52380; 32; 46020; 49436; 58; 32; 91; 52293; 32; 51228; 47785; 93; 10;
   52628; 52380; 32; 51060; 50976; 58; 32; 91; 45817; 49888; 51032; 32;
   52628; 52380; 49324; 93]%N.
(** ". 제목: ", "   저자: ", "   소개: ", "   별점: " *)
Definition label_title : pystr := [46; 32; 51228; 47785; 58; 32]%N.
Definition label_author : pystr := [32; 32; 32; 51200; 51088; 58; 32]%N.
Definition label_description : pystr := [32; 32; 32; 49548; 44060; 58; 32]%N.
Definition label_star_rating : pystr := [32; 32; 32; 48324; 51216; 58; 32]%N.

(** ** Data model *)

(** The dictionary returned by [get_book_detail]. *)
Record rating_info : Type := { star_rating_of : pystr }.

(** One entry of [book_list].  [title], [author], [description] and
    [cover_url] hold an element's [.text], which may be [None]. *)
Record book : Type := {
  title : option pystr;
  author : option pystr;
  description : option pystr;
  cover_url : option pystr;
  star_rating : pystr
}.

(** What one run shows to the user. *)
Inductive terminal : Type :=
| NoResults (user_query : pystr)
| Error (message : pystr)
| Unmatched (gemini_result : pystr)
| Resolved (recommended_book : book) (reason : pystr).

(** ** The functions of [app.py] *)

Section Pipeline.

(** Python's numeric readers, as far as the code observes them:
    [py_float_positive s] is [float(s) > 0] and [py_int s] is [int(s)];
    [None] stands for the [ValueError] either raises on a text it cannot
    read. *)
Variable py_float_positive : pystr -> option bool.
Variable py_int : pystr -> option Z.

Variable w : world.

(** [get_book_detail(item_id, item_id_type)].  Both [except] clauses
    return [None]; a [ValueError] of [float] or [int] is caught by
    neither. *)
Definition get_book_detail (item_id item_id_type : pystr)
  : result (option rating_info) :=
  match item_lookup w item_id item_id_type with
  | RequestException _ => Ok None
  | ParseError _ => Ok None
  | Document root =>
      match find "item" root with
      | None => Ok None
      | Some item =>
          let review_rank : result (option rating_info) :=
            match find "customerReviewRank" item with
            | None => Ok (Some {| star_rating_of := no_rating |})
            | Some review_rank_elem =>
                match text review_rank_elem with
                | Some ((_ :: _) as t) =>
                    match py_int t with
                    | None => Raise ValueError
                    | Some n =>
                        if (n >? 0)%Z then
                          Ok (Some {| star_rating_of :=
                                        str_of_int n ++ out_of_10 |})
                        else Ok (Some {| star_rating_of := no_rating |})
                    end
                | _ => Ok (Some {| star_rating_of := no_rating |})
                end
            end in
          match find "subInfo" item with
          | None => review_rank
          | Some sub_info =>
              match find "ratingInfo" sub_info with
              | None => review_rank
              | Some rating_info =>
                  match find "ratingScore" rating_info with
                  | None => review_rank
                  | Some score_elem =>
                      match text score_elem with
                      | Some ((_ :: _) as t) =>
                          match py_float_positive t with
                          | None => Raise ValueError
                          | Some true =>
                              Ok (Some {| star_rating_of :=
                                            t ++ out_of_10_0 |})
                          | Some false => review_rank
                          end
                      | _ => review_rank
                      end
                  end
              end
          end
      end
  end.

(** The [.text] of a child, or [default] when the child is absent. *)
Definition text_or (default : pystr) (name : string) (item : element)
  : option pystr :=
  match find name item with
  | Some e => text e
  | None => Some default
  end.

(** [isbn13] in the loop of [search_books_by_title]. *)
Definition isbn13_of (item : element) : option pystr :=
  match find "isbn13" item with
  | Some e => text e
  | None => None
  end.

(** The body of the [for item in items] loop: the dictionary appended
    for one item.  [item.find('cover', ns).text] has no guard, so an
    item without a [cover] child raises [AttributeError]. *)
Definition book_of_item (item : element) : result book :=
  rating <-
    match isbn13_of item with
    | Some ((_ :: _) as id) =>
        details <- get_book_detail id ISBN13 ;;
        match details with
        | Some d => Ok (star_rating_of d)
        | None => Ok no_rating
        end
    | _ => Ok no_rating
    end ;;
  cover <-
    match find "cover" item with
    | Some e => Ok (text e)
    | None => Raise AttributeError
    end ;;
  Ok {| title := text_or no_title "title" item;
        author := text_or no_author "author" item;
        description := text_or no_description "description" item;
        cover_url := cover;
        star_rating := rating |}.

(** [search_books_by_title(query, max_results)].  Only the two request
    failures are turned into [BookSearchError]. *)
Definition search_books_by_title (query : pystr) (max_results : Z)
  : result (list book) :=
  match item_search w query max_results with
  | RequestException e => Raise (BookSearchError (network_error_msg ++ e))
  | ParseError e => Raise (BookSearchError (parse_error_msg ++ e))
  | Document root =>
      match findall "item" root with
      | [] => Ok []
      | items => for_each book_of_item items
      end
  end.

(** How an f-string shows an [Optional[str]]. *)
Definition format_opt (o : option pystr) : pystr :=
  match o with
  | Some s => s
  | None => of_string "None"
  end.

(** [book_list_str], built by the [enumerate] loop; [i] is the index of
    the first book of [book_list]. *)
Fixpoint book_list_str (i : nat) (book_list : list book) : pystr :=
  match book_list with
  | [] => []
  | b :: rest =>
      ([LF] ++ str_of_int (Z.of_nat i + 1) ++ label_title
         ++ format_opt (title b) ++ [LF]
         ++ label_author ++ format_opt (author b) ++ [LF]
         ++ label_description ++ format_opt (description b) ++ [LF]
         ++ label_star_rating ++ star_rating b ++ [LF])
      ++ book_list_str (S i) rest
  end.

(** [get_gemini_recommendation(user_query, book_list)] *)
Definition get_gemini_recommendation (user_query : pystr)
  (book_list : list book) : result pystr :=
  let prompt :=
    prompt_head ++ user_query ++ prompt_mid
      ++ book_list_str 0 book_list ++ prompt_tail in
  match generate_content w prompt with
  | GenerateFailed e => Raise (RecommendationError (generate_error_msg ++ e))
  | Generated response_text => Ok (strip response_text)
  end.

(** The [for line in ...] loop of [parse_recommended_book_title]. *)
Fixpoint first_title_line (lines : list pystr) : option pystr :=
  match lines with
  | [] => None
  | line :: rest =>
      if startswith line title_marker
      then Some (strip (remove_all title_marker line))
      else first_title_line rest
  end.

(** [parse_recommended_book_title(gemini_response)]; nothing in the
    [try] block raises on a [str]. *)
Definition parse_recommended_book_title (gemini_response : pystr)
  : option pystr :=
  first_title_line (splitlines gemini_response).

(** The [reason] shown by [display_recommendation_card]. *)
Definition reason_of (gemini_response : pystr) : pystr :=
  strip (remove_all reason_marker
           (join [LF] (tl (splitlines gemini_response)))).

(** The [for book in found_books] loop of the workflow;
    [x in book['title']] raises [TypeError] on a [None] title. *)
Fixpoint match_loop (recommended_title : pystr) (found_books : list book)
  : result (option book) :=
  match found_books with
  | [] => Ok None
  | b :: rest =>
      match title b with
      | None => Raise TypeError
      | Some t =>
          if contains recommended_title t || contains t recommended_title
          then Ok (Some b)
          else match_loop recommended_title rest
      end
  end.

(** Step 3 of the workflow: [if recommended_title:] guards the loop. *)
Definition match_candidate (recommended_title : option pystr)
  (found_books : list book) : result (option book) :=
  match recommended_title with
  | Some ((_ :: _) as t) => match_loop t found_books
  | _ => Ok None
  end.

(** The [try] block of [run_recommendation_workflow]. *)
Definition workflow_body (user_query : pystr) : result terminal :=
  found_books <- search_books_by_title user_query 5 ;;
  match found_books with
  | [] => Ok (NoResults user_query)
  | _ :: _ =>
      gemini_result <- get_gemini_recommendation user_query found_books ;;
      let recommended_title := parse_recommended_book_title gemini_result in
      recommended_book <- match_candidate recommended_title found_books ;;
      match recommended_book with
      | Some b => Ok (Resolved b (reason_of gemini_result))
      | None => Ok (Unmatched gemini_result)
      end
  end.

(** [run_recommendation_workflow(user_query)]: the [except] clause shows
    the two application errors; any other exception leaves the run. *)
Definition run_recommendation_workflow (user_query : pystr)
  : result terminal :=
  match workflow_body user_query with
  | Raise (BookSearchError m) => Ok (Error (error_msg ++ m))
  | Raise (RecommendationError m) => Ok (Error (error_msg ++ m))
  | r => r
  end.

End Pipeline.

(** ** A reader for plain decimal literals

    Concrete runs need concrete readers.  [decimal_int] and
    [decimal_float_positive] read, after stripping surrounding
    whitespace, an optional sign followed by ASCII digits, with for the
    float an optional fraction.  Python's [int] and [float] read more than
    that (exponents, underscores, other scripts' digits, [inf], [nan]);
    the general theorems below hold for any reader, and the concrete runs
    only use short texts on which these readers and Python agree. *)

Definition is_digit (c : N) : bool := ((48 <=? c) && (c <=? 57))%N.

Definition digits_value (ds : pystr) : Z :=
  fold_left (fun acc c => (10 * acc + (Z.of_N c - 48))%Z) ds 0%Z.

(** [(negative, rest)] *)
Definition split_sign (s : pystr) : bool * pystr :=
  match s with
  | 43%N :: r => (false, r)
  | 45%N :: r => (true, r)
  | _ => (false, s)
  end.

Definition decimal_int (s : pystr) : option Z :=
  let (negative, ds) := split_sign (strip s) in
  match ds with
  | [] => None
  | _ :: _ =>
      if forallb is_digit ds then
        Some (if negative then (- digits_value ds)%Z else digits_value ds)
      else None
  end.

(** The digits before the first ['.'], and those after it if there is
    one. *)
Fixpoint split_at_dot (s : pystr) : pystr * option pystr :=
  match s with
  | [] => ([], None)
  | c :: s' =>
      if (c =? 46)%N then ([], Some s')
      else let (a, b) := split_at_dot s' in (c :: a, b)
  end.

(** A double is positive when the decimal value exceeds half of the
    smallest subnormal, [2^-1075]. *)
Definition decimal_float_positive (s : pystr) : option bool :=
  let (negative, body) := split_sign (strip s) in
  let (int_part, frac) := split_at_dot body in
  let frac_part := match frac with Some f => f | None => [] end in
  match int_part ++ frac_part with
  | [] => None
  | (_ :: _) as ds =>
      if forallb is_digit ds then
        Some (negb negative &&
              (10 ^ Z.of_nat (List.length frac_part)
                 <? digits_value ds * 2 ^ 1075)%Z)
      else None
  end.

(** ** Concrete documents and worlds for the examples *)

Module Examples.

(** A child element that holds text only. *)
Definition leaf (name : string) (s : pystr) : element :=
  Element (qualified name) (Some s) [].

Definition node (name : string) (cs : list element) : element :=
  Element (qualified name) None cs.

(** "연금술사" and "작은 것들의 신" *)
Definition alchemist : pystr := [50672; 44552; 49696; 49324]%N.
Definition small_things : pystr :=
  [51089; 51008; 32; 44163; 46308; 51032; 32; 49888]%N.

Definition cover_a : pystr := of_string "http://image.aladin.co.kr/a.jpg".
Definition isbn_a : pystr := of_string "9788937460449".
Definition isbn_b : pystr := of_string "9788982814471".

(** A search result of two complete items. *)
Definition two_items : element :=
  node "object"
    [ leaf "totalResults" (of_string "2");
      node "item" [ leaf "title" small_things; leaf "author" (of_string "A");
                    leaf "description" (of_string "d1");
                    leaf "isbn13" isbn_a; leaf "cover" cover_a ];
      node "item" [ leaf "title" alchemist; leaf "author" (of_string "B");
                    leaf "description" (of_string "d2");
                    leaf "isbn13" isbn_b; leaf "cover" cover_a ] ].

(** A search result whose only item has no [cover] child. *)
Definition item_without_cover : element :=
  node "object"
    [ node "item" [ leaf "title" alchemist; leaf "author" (of_string "B");
                    leaf "description" (of_string "d2") ] ].

(** A search result without items. *)
Definition no_items : element :=
  node "object" [ leaf "totalResults" (of_string "0") ].

(** Lookup answers: a rating score of 9.2, a review rank of 8, a rating
    score of 0 with a review rank of 8, and texts that are no numbers. *)
Definition item_score (s : pystr) (rank : list element) : element :=
  node "item"
    (node "subInfo" [ node "ratingInfo" [ leaf "ratingScore" s ] ] :: rank).

Definition detail_score (s : pystr) (rank : list element) : element :=
  node "object" [ item_score s rank ].

Definition detail_rank_only (s : pystr) : element :=
  node "object" [ node "item" [ leaf "customerReviewRank" s ] ].

(** "추천 도서: 연금술사\n추천 이유: ok" *)
Definition response_b : pystr :=
  title_marker ++ [32%N] ++ alchemist ++ [LF] ++ reason_marker
    ++ of_string " ok".

(** "추천 도서:  \n추천 이유: ok": nothing but blanks after the marker. *)
Definition response_blank_title : pystr :=
  title_marker ++ [32; 32; 10]%N ++ reason_marker ++ of_string " ok".

Definition lookup_a_b (id _ : pystr) : xml_reply :=
  if list_eq_dec N.eq_dec id isbn_a
  then Document (detail_score (of_string "9.2") [])
  else if list_eq_dec N.eq_dec id isbn_b
  then Document (detail_rank_only (of_string "8"))
  else RequestException (of_string "timeout").

Definition world_of (search : xml_reply) (gen : gen_reply) : world :=
  {| item_lookup := lookup_a_b;
     item_search := fun _ _ => search;
     generate_content := fun _ => gen |}.

Definition world_lookup (reply : xml_reply) : world :=
  {| item_lookup := fun _ _ => reply;
     item_search := fun _ _ => Document two_items;
     generate_content := fun _ => Generated response_b |}.

Definition get_book_detail' := get_book_detail decimal_float_positive decimal_int.
Definition search' := search_books_by_title decimal_float_positive decimal_int.
Definition run' := run_recommendation_workflow decimal_float_positive decimal_int.

End Examples.

(** ** The page: what the Streamlit calls draw *)

(** One call that draws or waits, with its arguments.  The [with]
    blocks of the source only place what is drawn inside them; a trace
    keeps the calls in the order in which they are made. *)
Inductive ui_event : Type :=
| st_progress (value : Z) (text : pystr)
| bar_progress (value : Z) (text : pystr)
| bar_empty
| time_sleep (seconds : QArith_base.Q)
| st_error (body : pystr)
| st_warning (body : pystr)
| st_info (body : pystr) (icon : option pystr)
| st_write (body : option pystr)
| st_code (body : pystr)
| st_balloons
| st_markdown (body : pystr) (unsafe_allow_html : bool)
| st_container
| st_header (body : pystr)
| st_columns (spec : list Z)
| st_image (image : pystr)
| st_subheader (body : option pystr)
| st_expander (label : pystr)
| st_title (body : pystr)
| st_form (key : pystr)
| st_text_input (label placeholder : pystr)
| st_form_submit_button (label : pystr)
| st_stop.

(** *** Literals of the page *)

(** [AI가 당신의 마음을 읽고 있어요...] *)
Definition progress_text_0 : pystr :=
  [65; 73; 44032; 32; 45817; 49888; 51032; 32; 47560; 51020; 51012; 32;
   51069; 44256; 32; 51080; 50612; 50836; 46; 46; 46]%N.
(** [관련 도서를 찾았어요. 이제 가장 좋은 책을 고를게요...] *)
Definition progress_text_33 : pystr :=
  [44288; 47144; 32; 46020; 49436; 47484; 32; 52286; 50520; 50612;
   50836; 46; 32; 51060; 51228; 32; 44032; 51109; 32; 51339; 51008; 32;
   52293; 51012; 32; 44256; 47484; 44172; 50836; 46; 46; 46]%N.
(** [거의 다 됐어요! 추천 결과를 예쁘게 꾸미는 중...] *)
Definition progress_text_66 : pystr :=
  [44144; 51032; 32; 45796; 32; 46096; 50612; 50836; 33; 32; 52628;
   52380; 32; 44208; 44284; 47484; 32; 50696; 49240; 44172; 32; 44984;
   48120; 45716; 32; 51473; 46; 46; 46]%N.
(** [짠! 당신을 위한 책이 도착했어요.] *)
Definition progress_text_100 : pystr :=
  [51680; 33; 32; 45817; 49888; 51012; 32; 50948; 54620; 32; 52293;
   51060; 32; 46020; 52265; 54664; 50612; 50836; 46]%N.
(** ['] *)
Definition no_results_head : pystr :=
  [39]%N.
(** ['(와)과 관련된 책을 찾지 못했습니다. 다른 키워드로 다시 시도해주세요.] *)
Definition no_results_tail : pystr :=
  [39; 40; 50752; 41; 44284; 32; 44288; 47144; 46108; 32; 52293; 51012;
   32; 52286; 51648; 32; 47803; 54664; 49845; 45768; 45796; 46; 32;
   45796; 47480; 32; 53412; 50892; 46300; 47196; 32; 45796; 49884; 32;
   49884; 46020; 54644; 51452; 49464; 50836; 46]%N.
(** [추천 결과를 처리하는 중 문제가 발생했습니다. AI의 추천 도서를 목록에서 찾을 수 없습니다.] *)
Definition unmatched_msg : pystr :=
  [52628; 52380; 32; 44208; 44284; 47484; 32; 52376; 47532; 54616;
   45716; 32; 51473; 32; 47928; 51228; 44032; 32; 48156; 49373; 54664;
   49845; 45768; 45796; 46; 32; 65; 73; 51032; 32; 52628; 52380; 32;
   46020; 49436; 47484; 32; 47785; 47197; 50640; 49436; 32; 52286;
   51012; 32; 49688; 32; 50630; 49845; 45768; 45796; 46]%N.
(** [**🤖 AI 원문 응답:**] *)
Definition raw_response_label : pystr :=
  [42; 42; 129302; 32; 65; 73; 32; 50896; 47928; 32; 51025; 45813; 58;
   42; 42]%N.
(** [\n        <style>\n        . ... }\n        </style>\n    ] *)
Definition card_style : pystr :=
  [10; 32; 32; 32; 32; 32; 32; 32; 32; 60; 115; 116; 121; 108; 101; 62;
   10; 32; 32; 32; 32; 32; 32; 32; 32; 46; 114; 101; 115; 117; 108; 116;
   45; 99; 111; 110; 116; 97; 105; 110; 101; 114; 32; 123; 10; 32; 32;
   32; 32; 32; 32; 32; 32; 32; 32; 32; 32; 98; 97; 99; 107; 103; 114;
   111; 117; 110; 100; 45; 99; 111; 108; 111; 114; 58; 32; 114; 103; 98;
   97; 40; 50; 53; 53; 44; 32; 50; 53; 53; 44; 32; 50; 53; 53; 44; 32;
   48; 46; 57; 41; 59; 32; 98; 111; 114; 100; 101; 114; 45; 114; 97;
   100; 105; 117; 115; 58; 32; 49; 53; 112; 120; 59; 32; 112; 97; 100;
   100; 105; 110; 103; 58; 32; 50; 53; 112; 120; 59; 10; 32; 32; 32; 32;
   32; 32; 32; 32; 32; 32; 32; 32; 98; 111; 120; 45; 115; 104; 97; 100;
   111; 119; 58; 32; 48; 32; 54; 112; 120; 32; 49; 50; 112; 120; 32;
   114; 103; 98; 97; 40; 48; 44; 48; 44; 48; 44; 48; 46; 49; 53; 41; 59;
   32; 98; 111; 114; 100; 101; 114; 58; 32; 49; 112; 120; 32; 115; 111;
   108; 105; 100; 32; 35; 101; 101; 101; 59; 10; 32; 32; 32; 32; 32; 32;
   32; 32; 125; 10; 32; 32; 32; 32; 32; 32; 32; 32; 60; 47; 115; 116;
   121; 108; 101; 62; 10; 32; 32; 32; 32]%N.
(** [<div class='result-container'>] *)
Definition card_open : pystr :=
  [60; 100; 105; 118; 32; 99; 108; 97; 115; 115; 61; 34; 114; 101; 115;
   117; 108; 116; 45; 99; 111; 110; 116; 97; 105; 110; 101; 114; 34;
   62]%N.
(** [✨ 당신을 위한 추천 도서 ✨] *)
Definition card_header : pystr :=
  [10024; 32; 45817; 49888; 51012; 32; 50948; 54620; 32; 52628; 52380;
   32; 46020; 49436; 32; 10024]%N.
(** [</div>] *)
Definition card_close : pystr :=
  [60; 47; 100; 105; 118; 62]%N.
(** [**✍️ 저자:** ] *)
Definition author_label : pystr :=
  [42; 42; 9997; 65039; 32; 51200; 51088; 58; 42; 42; 32]%N.
(** [**⭐ 알라딘 별점:** ] *)
Definition rating_label : pystr :=
  [42; 42; 11088; 32; 50508; 46972; 46360; 32; 48324; 51216; 58; 42; 42;
   32]%N.
(** [**💬 AI의 추천사:** *] *)
Definition reason_label : pystr :=
  [42; 42; 128172; 32; 65; 73; 51032; 32; 52628; 52380; 49324; 58; 42;
   42; 32; 42]%N.
(** [📖 책 소개 더 보기] *)
Definition expander_label : pystr :=
  [128214; 32; 52293; 32; 49548; 44060; 32; 45908; 32; 48372; 44592]%N.
(** [\n            <style>\n      ... l('data:image/jpg;base64,] *)
Definition background_style_head : pystr :=
  [10; 32; 32; 32; 32; 32; 32; 32; 32; 32; 32; 32; 32; 60; 115; 116;
   121; 108; 101; 62; 10; 32; 32; 32; 32; 32; 32; 32; 32; 32; 32; 32;
   32; 46; 115; 116; 65; 112; 112; 32; 123; 10; 32; 32; 32; 32; 32; 32;
   32; 32; 32; 32; 32; 32; 32; 32; 32; 32; 98; 97; 99; 107; 103; 114;
   111; 117; 110; 100; 45; 105; 109; 97; 103; 101; 58; 32; 117; 114;
   108; 40; 34; 100; 97; 116; 97; 58; 105; 109; 97; 103; 101; 47; 106;
   112; 103; 59; 98; 97; 115; 101; 54; 52; 44]%N.
(** [');\n                backgro ...        </style>\n        ] *)
Definition background_style_tail : pystr :=
  [34; 41; 59; 10; 32; 32; 32; 32; 32; 32; 32; 32; 32; 32; 32; 32; 32;
   32; 32; 32; 98; 97; 99; 107; 103; 114; 111; 117; 110; 100; 45; 115;
   105; 122; 101; 58; 32; 99; 111; 118; 101; 114; 59; 10; 32; 32; 32;
   32; 32; 32; 32; 32; 32; 32; 32; 32; 125; 10; 32; 32; 32; 32; 32; 32;
   32; 32; 32; 32; 32; 32; 60; 47; 115; 116; 121; 108; 101; 62; 10; 32;
   32; 32; 32; 32; 32; 32; 32]%N.
(** [ℹ️ 배경 이미지를 찾을 수 없어 기본 배경으로 표시됩니다.] *)
Definition background_missing_msg : pystr :=
  [8505; 65039; 32; 48176; 44221; 32; 51060; 48120; 51648; 47484; 32;
   52286; 51012; 32; 49688; 32; 50630; 50612; 32; 44592; 48376; 32;
   48176; 44221; 51004; 47196; 32; 54364; 49884; 46121; 45768; 45796;
   46]%N.
(** [background1.jpg] *)
Definition background_file : pystr :=
  [98; 97; 99; 107; 103; 114; 111; 117; 110; 100; 49; 46; 106; 112;
   103]%N.
(** [❌ 알라딘 TTBKey가 설정되지 않았습니다. 환경 변수 `ALADIN_TTBKEY`를 설정해주세요.] *)
Definition aladin_key_msg : pystr :=
  [10060; 32; 50508; 46972; 46360; 32; 84; 84; 66; 75; 101; 121; 44032;
   32; 49444; 51221; 46104; 51648; 32; 50506; 50520; 49845; 45768;
   45796; 46; 32; 54872; 44221; 32; 48320; 49688; 32; 96; 65; 76; 65;
   68; 73; 78; 95; 84; 84; 66; 75; 69; 89; 96; 47484; 32; 49444; 51221;
   54644; 51452; 49464; 50836; 46]%N.
(** [❌ Gemini API 키가 설정되지 않았습니다. 환경 변수 `GENAI_API_KEY`를 설정해주세요.] *)
Definition genai_key_msg : pystr :=
  [10060; 32; 71; 101; 109; 105; 110; 105; 32; 65; 80; 73; 32; 53412;
   44032; 32; 49444; 51221; 46104; 51648; 32; 50506; 50520; 49845;
   45768; 45796; 46; 32; 54872; 44221; 32; 48320; 49688; 32; 96; 71; 69;
   78; 65; 73; 95; 65; 80; 73; 95; 75; 69; 89; 96; 47484; 32; 49444;
   51221; 54644; 51452; 49464; 50836; 46]%N.
(** [❌ Gemini API 키 설정 중 오류가 발생했습니다: ] *)
Definition configure_error_msg : pystr :=
  [10060; 32; 71; 101; 109; 105; 110; 105; 32; 65; 80; 73; 32; 53412;
   32; 49444; 51221; 32; 51473; 32; 50724; 47448; 44032; 32; 48156;
   49373; 54664; 49845; 45768; 45796; 58; 32]%N.
(** [📚 AI 북 큐레이터] *)
Definition page_title : pystr :=
  [128218; 32; 65; 73; 32; 48513; 32; 53328; 47112; 51060; 53552]%N.
(** [Aladin API and Gemini ] *)
Definition info_head : pystr :=
  [65; 108; 97; 100; 105; 110; 32; 65; 80; 73; 32; 97; 110; 100; 32; 71;
   101; 109; 105; 110; 105; 32]%N.
(** [gemini-1.5-flash] *)
Definition gemini_model : pystr :=
  [103; 101; 109; 105; 110; 105; 45; 49; 46; 53; 45; 102; 108; 97; 115;
   104]%N.
(** [ℹ️] *)
Definition info_icon : pystr :=
  [8505; 65039]%N.
(** [---] *)
Definition rule_line : pystr :=
  [45; 45; 45]%N.
(** [recommendation_form] *)
Definition form_key : pystr :=
  [114; 101; 99; 111; 109; 109; 101; 110; 100; 97; 116; 105; 111; 110;
   95; 102; 111; 114; 109]%N.
(** [어떤 책을 추천해 드릴까요?] *)
Definition input_label : pystr :=
  [50612; 46500; 32; 52293; 51012; 32; 52628; 52380; 54644; 32; 46300;
   47540; 44620; 50836; 63]%N.
(** [키워드로 입력해주세요. 예: 사랑, 행복, 우주...] *)
Definition input_placeholder : pystr :=
  [53412; 50892; 46300; 47196; 32; 51077; 47141; 54644; 51452; 49464;
   50836; 46; 32; 50696; 58; 32; 49324; 46993; 44; 32; 54665; 48373; 44;
   32; 50864; 51452; 46; 46; 46]%N.
(** [나만을 위한 책 추천받기] *)
Definition submit_label : pystr :=
  [45208; 47564; 51012; 32; 50948; 54620; 32; 52293; 32; 52628; 52380;
   48155; 44592]%N.
(** [추천받고 싶은 책에 대한 내용을 입력해주세요!] *)
Definition empty_input_msg : pystr :=
  [52628; 52380; 48155; 44256; 32; 49910; 51008; 32; 52293; 50640; 32;
   45824; 54620; 32; 45236; 50857; 51012; 32; 51077; 47141; 54644;
   51452; 49464; 50836; 33]%N.

(** *** Files and base64 *)

(** What [open(file_path, 'rb')] and [f.read()] yield. *)
Inductive os_error : Type :=
| FileNotFoundError
| OtherOSError (cause : pystr).

Inductive file_reply : Type :=
| ReadFailed (e : os_error)
| FileContents (data : list Byte.byte).

Definition b64_alphabet : pystr :=
  of_string
    "ABCDEFGHIJKLMNOPQRSTUVWXYZabcdefghijklmnopqrstuvwxyz0123456789+/".

(** The symbol of a six-bit value; ['='] pads. *)
Definition b64_pad : N := 61%N.
Definition b64_char (n : N) : N := nth (N.to_nat n) b64_alphabet b64_pad.

(** [base64.b64encode(data).decode()] *)
Fixpoint b64encode (data : list Byte.byte) : pystr :=
  match data with
  | [] => []
  | [x] =>
      let a := Byte.to_N x in
      [b64_char (a / 4); b64_char ((a mod 4) * 16); b64_pad; b64_pad]%N
  | [x; y] =>
      let a := Byte.to_N x in
      let b := Byte.to_N y in
      [b64_char (a / 4); b64_char ((a mod 4) * 16 + b / 16);
       b64_char ((b mod 16) * 4); b64_pad]%N
  | x :: y :: z :: rest =>
      let a := Byte.to_N x in
      let b := Byte.to_N y in
      let c := Byte.to_N z in
      [b64_char (a / 4); b64_char ((a mod 4) * 16 + b / 16);
       b64_char ((b mod 16) * 4 + c / 64); b64_char (c mod 64)]%N
        ++ b64encode rest
  end.

(** *** The session: environment, files and the form *)

Record session : Type := {
  (** [os.getenv("ALADIN_TTBKEY")] and [os.getenv("GENAI_API_KEY")] *)
  ALADIN_TTBKEY : option pystr;
  GENAI_API_KEY : option pystr;
  (** [genai.configure(api_key=...)]: the [str(e)] of its exception *)
  genai_configure : pystr -> option pystr;
  (** reading a file in binary mode *)
  open_rb : pystr -> file_reply;
  (** what the form holds in this run of the script *)
  text_input : pystr;
  form_submit_button : bool
}.

(** How [main] ends: it returns, [st.stop()] halts the script, or an
    exception leaves it. *)
Inductive main_end : Type :=
| Returned
| Stopped
| Escaped (e : exn)
| EscapedOS (e : os_error).

(** *** The functions that draw *)

Section Page.

Variable py_float_positive : pystr -> option bool.
Variable py_int : pystr -> option Z.
Variable w : world.
Variable s : session.

(** [get_base64_of_bin_file(file_path)], on its first call for the
    path; [st.cache_data] answers later calls from its cache. *)
Definition get_base64_of_bin_file (file_path : pystr)
  : pystr + os_error :=
  match open_rb s file_path with
  | ReadFailed e => inr e
  | FileContents data => inl (b64encode data)
  end.

(** [set_page_background(file_path)]: only [FileNotFoundError] is
    caught. *)
Definition set_page_background (file_path : pystr)
  : list ui_event * option os_error :=
  match get_base64_of_bin_file file_path with
  | inl bin_str =>
      ([st_markdown (background_style_head ++ bin_str
                       ++ background_style_tail) true], None)
  | inr FileNotFoundError => ([st_info background_missing_msg None], None)
  | inr e => ([], Some e)
  end.

(** [display_recommendation_card(book_data, gemini_response)] *)
Definition display_recommendation_card (book_data : book)
  (gemini_response : pystr) : list ui_event :=
  [st_balloons; st_markdown card_style true; st_container;
   st_markdown card_open true; st_header card_header; st_columns [1; 2]%Z]
  ++ match cover_url book_data with
     | Some ((_ :: _) as url) => [st_image url]
     | _ => []
     end
  ++ [st_subheader (title book_data);
      st_write (Some (author_label ++ format_opt (author book_data)));
      st_write (Some (rating_label ++ star_rating book_data));
      st_markdown (reason_label ++ reason_of gemini_response ++ [42%N])
        false;
      st_expander expander_label;
      st_write (description book_data);
      st_markdown card_close true].

(** The [try] block of [run_recommendation_workflow] with what it
    draws: the calls made, and the exception that ended it if any. *)
Definition workflow_try_trace (user_query : pystr)
  : list ui_event * option exn :=
  match search_books_by_title py_float_positive py_int w user_query 5 with
  | Raise e => ([], Some e)
  | Ok [] =>
      ([st_error (no_results_head ++ user_query ++ no_results_tail)], None)
  | Ok ((_ :: _) as found_books) =>
      match get_gemini_recommendation w user_query found_books with
      | Raise e => ([bar_progress 33 progress_text_33], Some e)
      | Ok gemini_result =>
          let recommended_title :=
            parse_recommended_book_title gemini_result in
          match match_candidate recommended_title found_books with
          | Raise e =>
              ([bar_progress 33 progress_text_33;
                bar_progress 66 progress_text_66], Some e)
          | Ok recommended_book =>
              ([bar_progress 33 progress_text_33;
                bar_progress 66 progress_text_66;
                time_sleep (QArith_base.Qmake 1 1);
                bar_progress 100 progress_text_100]
               ++ match recommended_book with
                  | Some b => display_recommendation_card b gemini_result
                  | None =>
                      [st_error unmatched_msg;
                       st_write (Some raw_response_label);
                       st_code gemini_result]
                  end, None)
          end
      end
  end.

(** [run_recommendation_workflow(user_query)] with what it draws: the
    bar is created before the [try], the [except] clause shows the two
    application errors, and the [finally] clause waits and clears the
    bar. *)
Definition run_recommendation_workflow_trace (user_query : pystr)
  : list ui_event * option exn :=
  let (drawn, raised) := workflow_try_trace user_query in
  let (shown, escaped) :=
    match raised with
    | Some (BookSearchError m) => ([st_error (error_msg ++ m)], None)
    | Some (RecommendationError m) => ([st_error (error_msg ++ m)], None)
    | other => ([], other)
    end in
  (st_progress 0 progress_text_0
     :: drawn ++ shown ++ [time_sleep (QArith_base.Qmake 1 2); bar_empty],
   escaped).

(** [main()] *)
Definition main : list ui_event * main_end :=
  match ALADIN_TTBKEY s with
  | Some (_ :: _) =>
      match GENAI_API_KEY s with
      | Some ((_ :: _) as key) =>
          match genai_configure s key with
          | Some cause =>
              ([st_error (configure_error_msg ++ cause); st_stop], Stopped)
          | None =>
              let (background, failed) :=
                set_page_background background_file in
              match failed with
              | Some e => (background, EscapedOS e)
              | None =>
                  let page :=
                    background
                    ++ [st_title page_title;
                        st_info (info_head ++ gemini_model)
                          (Some info_icon);
                        st_markdown rule_line false;
                        st_form form_key;
                        st_text_input input_label input_placeholder;
                        st_form_submit_button submit_label] in
                  if form_submit_button s then
                    match text_input s with
                    | (_ :: _) as user_input =>
                        let (drawn, escaped) :=
                          run_recommendation_workflow_trace user_input in
                        (page ++ drawn,
                         match escaped with
                         | Some e => Escaped e
                         | None => Returned
                         end)
                    | [] => (page ++ [st_warning empty_input_msg], Returned)
                    end
                  else (page, Returned)
              end
          end
      | _ => ([st_error genai_key_msg; st_stop], Stopped)
      end
  | _ => ([st_error aladin_key_msg; st_stop], Stopped)
  end.

End Page.

(** ** Further concrete values for the examples *)

Module MoreExamples.

Import Examples.

Definition book_alchemist : book :=
  {| title := Some alchemist; author := Some (of_string "B");
     description := Some (of_string "d2"); cover_url := Some cover_a;
     star_rating := of_string "8 / 10" |}.

Definition book_small_things : book :=
  {| title := Some small_things; author := Some (of_string "A");
     description := Some (of_string "d1"); cover_url := Some cover_a;
     star_rating := of_string "9.2 / 10.0" |}.

(** A candidate built from an empty [<title/>] element. *)
Definition book_untitled : book :=
  {| title := None; author := Some (of_string "A");
     description := None; cover_url := None; star_rating := no_rating |}.

(** A session with both keys, a background file of three bytes, and
    the query "q" submitted. *)
Definition session_ready : session :=
  {| ALADIN_TTBKEY := Some (of_string "ttb");
     GENAI_API_KEY := Some (of_string "key");
     genai_configure := fun _ => None;
     open_rb := fun _ => FileContents [Byte.x4d; Byte.x61; Byte.x6e];
     text_input := of_string "q";
     form_submit_button := true |}.

(** The same session without the catalog key. *)
Definition session_without_key : session :=
  {| ALADIN_TTBKEY := None;
     GENAI_API_KEY := Some (of_string "key");
     genai_configure := fun _ => None;
     open_rb := fun _ => FileContents [Byte.x4d; Byte.x61; Byte.x6e];
     text_input := of_string "q";
     form_submit_button := true |}.

Definition world_b : world :=
  world_of (Document two_items) (Generated response_b).

End MoreExamples.

(** ** Vocabulary of the statements *)

(** [a] occurs in [b] as a contiguous run. *)
Definition substring (a b : pystr) : Prop :=
  exists pre post, b = pre ++ a ++ post.

(** The line does not begin with the title marker. *)
Definition unmarked (line : pystr) : Prop :=
  startswith line title_marker = false.

(** The code point is no line boundary / is white space. *)
Definition inline (c : N) : Prop := is_linebreak c = false.
Definition blank (c : N) : Prop := isspace c = true.

(** Where the next line starts after the line boundary [c]: a line feed
    that follows a carriage return belongs to the same boundary. *)
Definition after_break (c : N) (rest : pystr) : pystr :=
  match rest with
  | d :: rest' => if (c =? CR)%N && (d =? LF)%N then rest' else rest
  | [] => []
  end.

(** The candidate's title contains [t] or is contained in it. *)
Definition qualifies (t : pystr) (b : book) : Prop :=
  exists bt, title b = Some bt /\ (substring t bt \/ substring bt t).

Definition qualifiesb (t : pystr) (b : book) : bool :=
  match title b with
  | Some bt => contains t bt || contains bt t
  | None => false
  end.

(** The text of [subInfo/ratingInfo/ratingScore] under the item, and of
    its [customerReviewRank]; [None] when an element on the way is
    missing or the last one has no text. *)
Definition score_text (item : element) : option pystr :=
  match find "subInfo" item with
  | Some sub_info =>
      match find "ratingInfo" sub_info with
      | Some rating_info =>
          match find "ratingScore" rating_info with
          | Some score_elem => text score_elem
          | None => None
          end
      | None => None
      end
  | None => None
  end.

Definition rank_text (item : element) : option pystr :=
  match find "customerReviewRank" item with
  | Some e => text e
  | None => None
  end.

(** A rating string that [get_book_detail] builds from a number. *)
Definition numeric_rating (py_float_positive : pystr -> option bool)
  (py_int : pystr -> option Z) (s : pystr) : Prop :=
  (exists t, t <> [] /\ py_float_positive t = Some true
             /\ s = t ++ out_of_10_0)
  \/ (exists t n, py_int t = Some n /\ (0 < n)%Z
                  /\ s = str_of_int n ++ out_of_10).

(** No white space at either end. *)
Definition trimmed (s : pystr) : Prop :=
  forall c r,
    (s = c :: r -> isspace c = false) /\ (s = r ++ [c] -> isspace c = false).

(** The block that [book_list_str] writes for the book at index [k]. *)
Definition book_block (k : nat) (b : book) : pystr :=
  [LF] ++ str_of_int (Z.of_nat k + 1) ++ label_title
    ++ format_opt (title b) ++ [LF]
    ++ label_author ++ format_opt (author b) ++ [LF]
    ++ label_description ++ format_opt (description b) ++ [LF]
    ++ label_star_rating ++ star_rating b ++ [LF].

(** The values the progress bar is given, in order. *)
Definition progress_values (t : list ui_event) : list Z :=
  flat_map (fun e => match e with
                     | st_progress v _ => [v]
                     | bar_progress v _ => [v]
                     | _ => []
                     end) t.

(** An error box or the balloons that open the recommendation card. *)
Definition is_message (e : ui_event) : bool :=
  match e with
  | st_error _ => true
  | st_balloons => true
  | _ => false
  end.

(** Both keys are set and [genai.configure] accepts the second. *)
Definition keys_ready (s : session) : bool :=
  match ALADIN_TTBKEY s, GENAI_API_KEY s with
  | Some (_ :: _), Some ((_ :: _) as key) =>
      match genai_configure s key with
      | None => true
      | Some _ => false
      end
  | _, _ => false
  end.

(** A symbol of the base64 alphabet, or the padding. *)
Definition b64_symbol (c : N) : Prop := In c b64_alphabet \/ c = b64_pad.

(** [r] is [s] without the white space at its two ends. *)
Definition trimmed_from (s r : pystr) : Prop :=
  exists a b,
    s = a ++ r ++ b /\ Forall blank a /\ Forall blank b /\ trimmed r.


(** The base64 symbol of a six-bit value, as RFC 4648 numbers them:
    A-Z, a-z, 0-9, + and /. *)
Definition b64_symbol_of (v : N) : N :=
  (if v <? 26 then 65 + v
   else if v <? 52 then 97 + (v - 26)
   else if v <? 62 then 48 + (v - 52)
   else if v =? 62 then 43
   else 47)%N.

(** [text] is the base64 text of [data]: every three bytes, read as one
    number of 24 bits, give its four digits in base 64; one or two last
    bytes are filled with zero bits to 12 or 18 bits and padded. *)
Inductive Base64 : list Byte.byte -> pystr -> Prop :=
| base64_end : Base64 [] []
| base64_one (x : Byte.byte) (v1 v2 : N) :
    (v1 < 64)%N -> (v2 < 64)%N ->
    (v1 * 64 + v2 = Byte.to_N x * 16)%N ->
    Base64 [x] [b64_symbol_of v1; b64_symbol_of v2; 61%N; 61%N]
| base64_two (x y : Byte.byte) (v1 v2 v3 : N) :
    (v1 < 64)%N -> (v2 < 64)%N -> (v3 < 64)%N ->
    (v1 * 4096 + v2 * 64 + v3
     = (Byte.to_N x * 256 + Byte.to_N y) * 4)%N ->
    Base64 [x; y]
      [b64_symbol_of v1; b64_symbol_of v2; b64_symbol_of v3; 61%N]
| base64_three (x y z : Byte.byte) (rest : list Byte.byte)
    (text : pystr) (v1 v2 v3 v4 : N) :
    (v1 < 64)%N -> (v2 < 64)%N -> (v3 < 64)%N -> (v4 < 64)%N ->
    (v1 * 262144 + v2 * 4096 + v3 * 64 + v4
     = Byte.to_N x * 65536 + Byte.to_N y * 256 + Byte.to_N z)%N ->
    Base64 rest text ->
    Base64 (x :: y :: z :: rest)
      (b64_symbol_of v1 :: b64_symbol_of v2 :: b64_symbol_of v3
         :: b64_symbol_of v4 :: text).

(** * Properties *)

(** ** Facts about the string operations *)

Section StringFacts.

Lemma startswith_app (p r : pystr) : startswith (p ++ r) p = true.
Proof.
  induction p as [|x p IH]; simpl; [reflexivity|].
  now rewrite N.eqb_refl, IH.
Qed.

Lemma startswith_spec (s p : pystr) :
  startswith s p = true <-> exists r, s = p ++ r.
Proof.
  split.
  - revert s. induction p as [|x p IH]; intros s H.
    + exists s. reflexivity.
    + destruct s as [|y s]; simpl in H; [discriminate|].
      apply andb_true_iff in H. destruct H as [Hxy Hp].
      apply N.eqb_eq in Hxy. subst y.
      destruct (IH _ Hp) as [r ->]. exists r. reflexivity.
  - intros [r ->]. apply startswith_app.
Qed.

Lemma contains_startswith (needle hay : pystr) :
  startswith hay needle = true -> contains needle hay = true.
Proof. destruct hay; simpl; intros ->; reflexivity. Qed.

Lemma contains_spec (needle hay : pystr) :
  contains needle hay = true <-> substring needle hay.
Proof.
  unfold substring. split.
  - induction hay as [|c hay IH]; simpl; intros H.
    + rewrite orb_false_r in H. apply startswith_spec in H.
      destruct H as [r Hr]. exists [], r. exact Hr.
    + apply orb_true_iff in H. destruct H as [H|H].
      * apply startswith_spec in H. destruct H as [r Hr].
        exists [], r. exact Hr.
      * destruct (IH H) as (pre & post & ->).
        exists (c :: pre), post. reflexivity.
  - intros (pre & post & ->).
    induction pre as [|c pre IH]; simpl.
    + apply contains_startswith, startswith_app.
    + rewrite IH. apply orb_true_r.
Qed.

Lemma contains_nil_l (hay : pystr) : contains [] hay = true.
Proof. apply contains_spec. exists [], hay. reflexivity. Qed.

Lemma remove_go_skip (old l s : pystr) :
  remove_go old (List.length l) (l ++ s) = remove_go old 0 s.
Proof.
  induction l as [|c l IH]; simpl; [|exact IH].
  destruct s; reflexivity.
Qed.

Lemma remove_all_prefix (old s : pystr) :
  remove_all old (old ++ s) = remove_all old s.
Proof.
  destruct old as [|c old]; [reflexivity|].
  unfold remove_all.
  change ((c :: old) ++ s) with (c :: (old ++ s)).
  cbn [remove_go].
  change (c :: old ++ s) with ((c :: old) ++ s).
  rewrite startswith_app.
  replace (List.length (c :: old) - 1) with (List.length old)
    by (cbn [List.length]; lia).
  apply remove_go_skip.
Qed.

Lemma remove_all_absent (old s : pystr) :
  contains old s = false -> remove_all old s = s.
Proof.
  destruct old as [|x old]; [reflexivity|].
  unfold remove_all.
  induction s as [|c s IH]; intros H; [reflexivity|].
  cbn [contains] in H. apply orb_false_iff in H. destruct H as [H1 H2].
  cbn [remove_go]. rewrite H1, (IH H2). reflexivity.
Qed.


Lemma splitlines_first_break (l rest : pystr) (c : N) :
  Forall inline l -> is_linebreak c = true ->
  splitlines (l ++ c :: rest) = l :: splitlines (after_break c rest).
Proof.
  intros Hl Hc. induction Hl as [|x l Hx _ IH].
  - cbn [app splitlines]. rewrite Hc. unfold after_break.
    destruct rest as [|d rest]; [reflexivity|].
    destruct ((c =? CR)%N && (d =? LF)%N); reflexivity.
  - cbn [app splitlines]. unfold inline in Hx. rewrite Hx, IH.
    reflexivity.
Qed.


Lemma lstrip_decompose (s : pystr) :
  exists a, s = a ++ lstrip s /\ Forall blank a.
Proof.
  induction s as [|c s (a & Ha & Hblank)]; [exists []; split; constructor|].
  cbn [lstrip]. destruct (isspace c) eqn:Ec.
  - exists (c :: a). split; [cbn; congruence|]. constructor; assumption.
  - exists []. split; constructor.
Qed.

(** [strip] takes white space, and nothing else, from both ends. *)
Lemma strip_decompose (s : pystr) :
  exists a b, s = a ++ strip s ++ b /\ Forall blank a /\ Forall blank b.
Proof.
  destruct (lstrip_decompose s) as (a & Ha & Hblank).
  destruct (lstrip_decompose (rev (lstrip s))) as (b & Hb & Hblank').
  exists a, (rev b). repeat split; [|exact Hblank|].
  - unfold strip, rstrip. rewrite <- rev_app_distr, <- Hb, rev_involutive.
    exact Ha.
  - apply Forall_rev, Hblank'.
Qed.

End StringFacts.

(** ** Recommendation parser *)

Section Parser.

Lemma first_title_line_skip (pre : list pystr) (lines : list pystr) :
  Forall unmarked pre ->
  first_title_line (pre ++ lines) = first_title_line lines.
Proof.
  induction 1 as [|l pre Hl _ IH]; [reflexivity|].
  cbn [app first_title_line]. unfold unmarked in Hl. rewrite Hl. exact IH.
Qed.

Lemma first_title_line_none (lines : list pystr) :
  first_title_line lines = None <-> Forall unmarked lines.
Proof.
  induction lines as [|l lines IH]; cbn [first_title_line].
  - split; [constructor | reflexivity].
  - destruct (startswith l title_marker) eqn:E.
    + split; [discriminate|]. intros H. inversion H as [|? ? Hl _].
      unfold unmarked in Hl. congruence.
    + rewrite IH. split; intros H.
      * constructor; assumption.
      * inversion H; assumption.
Qed.

Lemma lstrip_blank (ws : pystr) : Forall blank ws -> lstrip ws = [].
Proof.
  induction 1 as [|c ws Hc _ IH]; simpl; [reflexivity|].
  unfold blank in Hc. rewrite Hc. exact IH.
Qed.

Lemma strip_blank (ws : pystr) : Forall blank ws -> strip ws = [].
Proof.
  intros H. unfold strip. rewrite (lstrip_blank H). reflexivity.
Qed.

Lemma blank_has_no_title_marker (ws : pystr) :
  Forall blank ws -> contains title_marker ws = false.
Proof.
  induction 1 as [|c ws Hc _ IH]; [reflexivity|].
  cbn [contains]. rewrite IH, orb_false_r.
  cbn [startswith title_marker].
  destruct (N.eqb_spec 52628 c) as [<-|]; [discriminate Hc | reflexivity].
Qed.

Lemma parse_marker_line (response suffix : pystr)
  (pre post : list pystr) :
  splitlines response = pre ++ (title_marker ++ suffix) :: post ->
  Forall unmarked pre ->
  parse_recommended_book_title response
    = Some (strip (remove_all title_marker suffix)).
Proof.
  unfold parse_recommended_book_title. intros -> Hpre.
  rewrite (first_title_line_skip _ Hpre).
  cbn [first_title_line]. rewrite startswith_app, remove_all_prefix.
  reflexivity.
Qed.

(** C4, as the code has it.  The parser takes the first line, in line
    order, that begins with "추천 도서:", removes every occurrence of the
    marker from it and strips the rest; when the marker does not occur
    again after the leading one this is the stripped remainder of the
    line.  It yields [None] exactly when no line begins with the marker,
    and being a total function it raises nothing. *)
Theorem parser_first_marker_line (response : pystr) :
  (forall pre suffix post,
      splitlines response = pre ++ (title_marker ++ suffix) :: post ->
      Forall unmarked pre ->
      parse_recommended_book_title response
        = Some (strip (remove_all title_marker suffix))
      /\ (contains title_marker suffix = false ->
          parse_recommended_book_title response = Some (strip suffix)))
  /\ (parse_recommended_book_title response = None
      <-> Forall unmarked (splitlines response)).
Proof.
  split.
  - intros pre suffix post Hlines Hpre.
    rewrite (parse_marker_line _ _ _ Hlines Hpre).
    split; [reflexivity|].
    intros H. rewrite (remove_all_absent _ _ H). reflexivity.
  - apply first_title_line_none.
Qed.

(** The run of C4's theorem on "추천 도서: 연금술사\n추천 이유: ok". *)
Lemma parser_first_marker_line_witness :
  parse_recommended_book_title Examples.response_b = Some Examples.alchemist
  /\ (parse_recommended_book_title (of_string "ok") = None).
Proof.
  split.
  - destruct (parser_first_marker_line Examples.response_b) as [H _].
    destruct (H [] (32%N :: Examples.alchemist)
                [reason_marker ++ of_string " ok"]) as [_ H'].
    + reflexivity.
    + constructor.
    + apply H'. reflexivity.
  - destruct (parser_first_marker_line (of_string "ok")) as [_ H].
    apply H. repeat constructor.
Defined.

(** C4 as stated fails on a line that holds the marker twice: the
    answer is not the stripped remainder of the line. *)
Lemma parser_repeated_marker_counterexample :
  let line := title_marker ++ [65%N] ++ title_marker in
  splitlines line = [line]
  /\ startswith line title_marker = true
  /\ parse_recommended_book_title line = Some [65%N]
  /\ parse_recommended_book_title line
     <> Some (strip ([65%N] ++ title_marker)).
Proof.
  cbv zeta. repeat split; try reflexivity.
  vm_compute. discriminate.
Qed.

End Parser.

(** ** Texts of one line *)

Section Rationale.


End Rationale.

(** ** Candidate matcher *)

Section Matcher.

Lemma qualifiesb_spec (t : pystr) (b : book) :
  qualifiesb t b = true <-> qualifies t b.
Proof.
  unfold qualifiesb, qualifies. destruct (title b) as [bt|].
  - rewrite orb_true_iff, !contains_spec. split.
    + intros H. exists bt. split; [reflexivity | exact H].
    + intros (bt' & [= <-] & H). exact H.
  - split; [discriminate|]. intros (bt & [=] & _).
Qed.

Lemma match_loop_find (t : pystr) (books : list book) :
  Forall (fun b => title b <> None) books ->
  match_loop t books = Ok (List.find (qualifiesb t) books).
Proof.
  induction 1 as [|b books Hb _ IH]; [reflexivity|].
  cbn [match_loop List.find]. unfold qualifiesb at 1.
  destruct (title b) as [bt|]; [|congruence].
  destruct (contains t bt || contains bt t); [reflexivity | exact IH].
Qed.

Lemma find_first (A : Type) (f : A -> bool) (l : list A) (x : A) :
  List.find f l = Some x <->
  exists l1 l2, l = l1 ++ x :: l2 /\ f x = true
                /\ Forall (fun y => f y = false) l1.
Proof.
  induction l as [|a l IH]; cbn [List.find].
  - split; [discriminate|]. intros ([|? ?] & ? & [=] & _).
  - destruct (f a) eqn:Ea.
    + split.
      * intros [= <-]. exists [], l. repeat split; [exact Ea | constructor].
      * intros ([|a' l1] & l2 & E & Hx & Hl1).
        -- injection E as <- _. reflexivity.
        -- injection E as <- _. inversion Hl1; congruence.
    + rewrite IH. split.
      * intros (l1 & l2 & -> & Hx & Hl1).
        exists (a :: l1), l2. repeat split; [exact Hx|].
        constructor; assumption.
      * intros ([|a' l1] & l2 & E & Hx & Hl1).
        -- injection E as <- _. congruence.
        -- injection E as <- ->. exists l1, l2.
           repeat split; [exact Hx|]. inversion Hl1; assumption.
Qed.

Lemma find_none_iff (A : Type) (f : A -> bool) (l : list A) :
  List.find f l = None <-> Forall (fun y => f y = false) l.
Proof.
  induction l as [|a l IH]; cbn [List.find].
  - split; [constructor | reflexivity].
  - destruct (f a) eqn:Ea.
    + split; [discriminate|]. intros H. inversion H; congruence.
    + rewrite IH. split; intros H.
      * constructor; assumption.
      * inversion H; assumption.
Qed.

Lemma not_qualifies_iff (t : pystr) (b : book) :
  qualifiesb t b = false <-> ~ qualifies t b.
Proof.
  rewrite <- qualifiesb_spec. destruct (qualifiesb t b); split;
    congruence.
Qed.

Lemma Forall_not_qualifies (t : pystr) (l : list book) :
  Forall (fun y => qualifiesb t y = false) l
  <-> Forall (fun y => ~ qualifies t y) l.
Proof.
  split; intros H; eapply Forall_impl; try exact H;
    intros b; apply not_qualifies_iff.
Qed.

(** C1, as the code has it.  For an absent or an empty parsed title
    the matcher returns no candidate, whatever the list holds.  For a
    non-empty parsed title and candidates whose titles are strings, it
    returns the first candidate in list order whose title contains the
    parsed title or is contained in it, and no candidate when none is;
    it raises nothing. *)
Theorem matcher_first_qualifying (t : pystr) (books : list book) :
  match_candidate None books = Ok None
  /\ match_candidate (Some []) books = Ok None
  /\ (t <> [] ->
      Forall (fun b => title b <> None) books ->
      (forall b,
          match_candidate (Some t) books = Ok (Some b)
          <-> exists l1 l2, books = l1 ++ b :: l2 /\ qualifies t b
                            /\ Forall (fun y => ~ qualifies t y) l1)
      /\ (match_candidate (Some t) books = Ok None
          <-> Forall (fun y => ~ qualifies t y) books)
      /\ (exists r, match_candidate (Some t) books = Ok r)).
Proof.
  split; [reflexivity|]. split; [reflexivity|].
  intros Ht Hbooks.
  assert (E : match_candidate (Some t) books
              = Ok (List.find (qualifiesb t) books)).
  { destruct t; [congruence|]. apply match_loop_find, Hbooks. }
  rewrite E. repeat split.
  - intros [= H]. apply find_first in H.
    destruct H as (l1 & l2 & ? & ? & ?). exists l1, l2.
    rewrite <- qualifiesb_spec, <- Forall_not_qualifies. auto.
  - intros (l1 & l2 & ? & Hq & Hl1). f_equal. apply find_first.
    exists l1, l2.
    rewrite <- qualifiesb_spec, <- Forall_not_qualifies in *. auto.
  - intros [= H]. apply Forall_not_qualifies, find_none_iff, H.
  - intros H. f_equal. apply find_none_iff, Forall_not_qualifies, H.
  - eexists. reflexivity.
Qed.

(** The run of C1's theorem on the two candidates of [two_items] and
    the parsed title "연금술사": the second candidate is returned. *)
Lemma matcher_first_qualifying_witness :
  exists a b,
    Examples.search' (Examples.world_of (Document Examples.two_items)
                        (Generated Examples.response_b)) [] 5
      = Ok [a; b]
    /\ match_candidate (Some Examples.alchemist) [a; b] = Ok (Some b).
Proof.
  eexists. eexists. split; [reflexivity|].
  eapply (proj1 (proj2 (proj2 (@matcher_first_qualifying
                                 Examples.alchemist _)) _ _)).
  Unshelve.
  - eexists [_], []. split; [reflexivity|]. split.
    + eexists. split; [reflexivity|]. left. exists [], []. reflexivity.
    + constructor; [|constructor]. apply not_qualifies_iff. reflexivity.
  - discriminate.
  - repeat constructor; discriminate.
Defined.

(** C1 as stated fails on an empty parsed title: every title contains
    the empty string, yet no candidate is returned. *)
Lemma matcher_empty_title_counterexample :
  let b := {| title := Some Examples.alchemist; author := None;
              description := None; cover_url := None;
              star_rating := no_rating |} in
  qualifies [] b
  /\ match_candidate (Some []) [b] = Ok None
  /\ match_candidate (Some []) [b] <> Ok (Some b).
Proof.
  cbv zeta. repeat split; try discriminate.
  eexists. split; [reflexivity|]. left. exists [], Examples.alchemist.
  reflexivity.
Qed.

(** A candidate without title text, met before any match, makes the
    containment test raise. *)
Lemma matcher_none_title_raises (t : pystr) (b : book)
  (books : list book) :
  t <> [] -> title b = None ->
  match_candidate (Some t) (b :: books) = Raise TypeError.
Proof.
  intros Ht Hb. destruct t; [congruence|].
  cbn [match_candidate match_loop]. rewrite Hb. reflexivity.
Qed.

End Matcher.

(** ** Catalog detail lookup *)

Section DetailLookup.

Variable py_float_positive : pystr -> option bool.
Variable py_int : pystr -> option Z.
Variable w : world.

Local Abbreviation detail := (get_book_detail py_float_positive py_int w).

(** What the branch on [customerReviewRank] yields for an item. *)
Lemma review_rank_cases (id ty : pystr) (root item : element) :
  item_lookup w id ty = Document root ->
  find "item" root = Some item ->
  (truthy (score_text item) = false
   \/ exists s, score_text item = Some s
                /\ py_float_positive s = Some false) ->
  detail id ty =
    match rank_text item with
    | Some ((_ :: _) as t) =>
        match py_int t with
        | None => Raise ValueError
        | Some n =>
            if (n >? 0)%Z
            then Ok (Some {| star_rating_of := str_of_int n ++ out_of_10 |})
            else Ok (Some {| star_rating_of := no_rating |})
        end
    | _ => Ok (Some {| star_rating_of := no_rating |})
    end.
Proof.
  intros Hdoc Hitem Hscore.
  unfold get_book_detail. rewrite Hdoc, Hitem.
  unfold score_text, rank_text in *.
  destruct (find "customerReviewRank" item) as [re|];
    destruct (find "subInfo" item) as [si|]; try reflexivity;
    destruct (find "ratingInfo" si) as [ri|]; try reflexivity;
    destruct (find "ratingScore" ri) as [se|]; try reflexivity;
    destruct (text se) as [[|c s]|]; try reflexivity;
    destruct Hscore as [Hs|(s' & [= <-] & Hs)]; try discriminate Hs;
    rewrite Hs; reflexivity.
Qed.

(** The extraction priority on texts that read as numbers.  For a
    parsed lookup answer with an item:
    a [ratingScore] text that reads as a positive float gives
    "<text> / 10.0", whatever [customerReviewRank] holds; when the score
    text is missing, empty or reads as a float that is not positive, a
    [customerReviewRank] text that reads as a positive integer [n] gives
    "<n> / 10", and one that is missing, empty or reads as an integer
    that is not positive gives "별점 정보 없음". *)
Theorem detail_priority (id ty : pystr) (root item : element) :
  item_lookup w id ty = Document root ->
  find "item" root = Some item ->
  (forall s,
      score_text item = Some s -> s <> [] ->
      py_float_positive s = Some true ->
      detail id ty = Ok (Some {| star_rating_of := s ++ out_of_10_0 |}))
  /\ ((truthy (score_text item) = false
       \/ exists s, score_text item = Some s
                    /\ py_float_positive s = Some false) ->
      (forall t n,
          rank_text item = Some t -> t <> [] ->
          py_int t = Some n -> (0 < n)%Z ->
          detail id ty
            = Ok (Some {| star_rating_of := str_of_int n ++ out_of_10 |}))
      /\ ((truthy (rank_text item) = false
           \/ exists t n, rank_text item = Some t /\ py_int t = Some n
                          /\ (n <= 0)%Z) ->
          detail id ty = Ok (Some {| star_rating_of := no_rating |}))).
Proof.
  intros Hdoc Hitem. split.
  - intros s Hs Hne Hpos.
    unfold get_book_detail. rewrite Hdoc, Hitem.
    unfold score_text in Hs.
    destruct (find "subInfo" item) as [si|]; [|discriminate].
    destruct (find "ratingInfo" si) as [ri|]; [|discriminate].
    destruct (find "ratingScore" ri) as [se|]; [|discriminate].
    rewrite Hs. destruct s; [congruence|]. rewrite Hpos. reflexivity.
  - intros Hscore. rewrite (review_rank_cases _ _ Hdoc Hitem Hscore).
    split.
    + intros t n -> Hne Hn Hpos. destruct t; [congruence|].
      rewrite Hn. apply Z.gtb_lt in Hpos. rewrite Hpos. reflexivity.
    + intros [Ht|(t & n & -> & Hn & Hle)].
      * destruct (rank_text item) as [[|? ?]|];
          [reflexivity | discriminate | reflexivity].
      * destruct t; [reflexivity|]. rewrite Hn.
        destruct (Z.gtb_spec n 0); [lia | reflexivity].
Qed.

(** The two request failures, and an answer without item, give
    [None]. *)
Lemma detail_lookup_failures (id ty : pystr) :
  (forall e,
      item_lookup w id ty = RequestException e
      \/ item_lookup w id ty = ParseError e ->
      detail id ty = Ok None)
  /\ (forall root,
         item_lookup w id ty = Document root ->
         find "item" root = None ->
         detail id ty = Ok None).
Proof.
  unfold get_book_detail. split.
  - intros e [H|H]; rewrite H; reflexivity.
  - intros root H1 H2. rewrite H1, H2. reflexivity.
Qed.

(** With readers that accept every text, the lookup always returns. *)
Lemma detail_lookup_returns_when_readable (id ty : pystr) :
  (forall t, py_float_positive t <> None) ->
  (forall t, py_int t <> None) ->
  exists r, detail id ty = Ok r.
Proof.
  intros Hf Hi. unfold get_book_detail.
  destruct (item_lookup w id ty) as [e|e|root]; try (eexists; reflexivity).
  destruct (find "item" root) as [item|]; [|eexists; reflexivity].
  assert (Hrank : exists r,
    match find "customerReviewRank" item with
    | None => Ok (Some {| star_rating_of := no_rating |})
    | Some review_rank_elem =>
        match text review_rank_elem with
        | Some ((_ :: _) as t) =>
            match py_int t with
            | None => Raise ValueError
            | Some n =>
                if (n >? 0)%Z
                then Ok (Some {| star_rating_of :=
                                   str_of_int n ++ out_of_10 |})
                else Ok (Some {| star_rating_of := no_rating |})
            end
        | _ => Ok (Some {| star_rating_of := no_rating |})
        end
    end = Ok r).
  { destruct (find "customerReviewRank" item) as [re|];
      [|eexists; reflexivity].
    destruct (text re) as [[|c t]|]; try (eexists; reflexivity).
    specialize (Hi (c :: t)).
    destruct (py_int (c :: t)) as [n|]; [|congruence].
    destruct (n >? 0)%Z; eexists; reflexivity. }
  destruct (find "subInfo" item) as [si|]; [|exact Hrank].
  destruct (find "ratingInfo" si) as [ri|]; [|exact Hrank].
  destruct (find "ratingScore" ri) as [se|]; [|exact Hrank].
  destruct (text se) as [[|c s]|]; try exact Hrank.
  specialize (Hf (c :: s)).
  destruct (py_float_positive (c :: s)) as [[|]|];
    [eexists; reflexivity | exact Hrank | congruence].
Qed.

End DetailLookup.

(** The runs of the priority theorem: a score of 9.2 beside a rank that is no
    number, a score of 0 beside a rank of 8, and a score of 0 alone. *)
Lemma detail_priority_witness :
  Examples.get_book_detail'
    (Examples.world_lookup
       (Document (Examples.detail_score (of_string "9.2")
                    [Examples.leaf "customerReviewRank" (of_string "N/A")])))
    Examples.isbn_a ISBN13
  = Ok (Some {| star_rating_of := of_string "9.2 / 10.0" |})
  /\ Examples.get_book_detail'
       (Examples.world_lookup
          (Document (Examples.detail_score (of_string "0")
                       [Examples.leaf "customerReviewRank" (of_string "8")])))
       Examples.isbn_a ISBN13
     = Ok (Some {| star_rating_of := of_string "8 / 10" |})
  /\ Examples.get_book_detail'
       (Examples.world_lookup
          (Document (Examples.detail_score (of_string "0") [])))
       Examples.isbn_a ISBN13
     = Ok (Some {| star_rating_of := no_rating |}).
Proof.
  pose (rank8 := [Examples.leaf "customerReviewRank" (of_string "8")]).
  pose (rankNA := [Examples.leaf "customerReviewRank" (of_string "N/A")]).
  split; [|split].
  - refine (proj1 (@detail_priority decimal_float_positive decimal_int
                     (Examples.world_lookup _) Examples.isbn_a ISBN13
                     (Examples.detail_score (of_string "9.2") rankNA)
                     (Examples.item_score (of_string "9.2") rankNA)
                     eq_refl eq_refl)
              (of_string "9.2") eq_refl _ eq_refl).
    discriminate.
  - refine (proj1 (proj2 (@detail_priority decimal_float_positive
                            decimal_int (Examples.world_lookup _)
                            Examples.isbn_a ISBN13
                            (Examples.detail_score (of_string "0") rank8)
                            (Examples.item_score (of_string "0") rank8)
                            eq_refl eq_refl) _)
              (of_string "8") 8%Z eq_refl _ eq_refl eq_refl).
    + right. exists (of_string "0"). split; reflexivity.
    + discriminate.
  - refine (proj2 (proj2 (@detail_priority decimal_float_positive
                            decimal_int (Examples.world_lookup _)
                            Examples.isbn_a ISBN13
                            (Examples.detail_score (of_string "0") [])
                            (Examples.item_score (of_string "0") [])
                            eq_refl eq_refl) _)
              _).
    + right. exists (of_string "0"). split; reflexivity.
    + left. reflexivity.
Defined.

(** C5 at a failing input: a lookup answer whose [ratingScore] is
    "N/A" and whose [customerReviewRank] is "8".  The score is no
    positive number and the rank is a positive integer, so the answer
    should be "8 / 10"; [float] raises [ValueError] instead, neither
    [except] clause catches it, and it leaves [get_book_detail]. *)
Theorem detail_score_value_error_escapes :
  let w := Examples.world_lookup
             (Document (Examples.detail_score (of_string "N/A")
                          [Examples.leaf "customerReviewRank"
                             (of_string "8")])) in
  decimal_float_positive (of_string "N/A") = None
  /\ decimal_int (of_string "8") = Some 8%Z
  /\ Examples.get_book_detail' w Examples.isbn_a ISBN13 = Raise ValueError
  /\ Examples.get_book_detail' w Examples.isbn_a ISBN13
     <> Ok (Some {| star_rating_of := of_string "8 / 10" |}).
Proof.
  cbv zeta. repeat split; try reflexivity.
  vm_compute. discriminate.
Qed.

(** C3 at a failing input: a lookup answer whose [customerReviewRank]
    is "N/A".  [int] raises [ValueError], neither [except] clause
    catches it, and it leaves [get_book_detail]. *)
Theorem detail_lookup_value_error_escapes :
  Examples.get_book_detail'
    (Examples.world_lookup
       (Document (Examples.detail_rank_only (of_string "N/A"))))
    Examples.isbn_a ISBN13
  = Raise ValueError.
Proof. reflexivity. Qed.

(** ** Catalog search *)

Section Search.

Variable py_float_positive : pystr -> option bool.
Variable py_int : pystr -> option Z.
Variable w : world.

Local Abbreviation detail := (get_book_detail py_float_positive py_int w).
Local Abbreviation search := (search_books_by_title py_float_positive py_int w).
Local Abbreviation run := (run_recommendation_workflow py_float_positive py_int w).

Lemma for_each_Forall2 (A B : Type) (f : A -> result B) (l : list A)
  (ys : list B) :
  for_each f l = Ok ys -> Forall2 (fun x y => f x = Ok y) l ys.
Proof.
  revert ys. induction l as [|x l IH]; cbn [for_each]; intros ys H.
  - injection H as <-. constructor.
  - destruct (f x) as [y|e] eqn:Ex; [|discriminate].
    cbn [bind] in H.
    destruct (for_each f l) as [ys'|e]; [|discriminate].
    cbn [bind] in H. injection H as <-.
    constructor; [exact Ex | apply IH; reflexivity].
Qed.

Lemma search_ok_items (q : pystr) (n : Z) (books : list book) :
  search q n = Ok books ->
  exists root,
    item_search w q n = Document root
    /\ Forall2 (fun item b =>
                  book_of_item py_float_positive py_int w item = Ok b)
         (findall "item" root) books.
Proof.
  unfold search_books_by_title.
  destruct (item_search w q n) as [e|e|root]; try discriminate.
  intros H. exists root. split; [reflexivity|].
  destruct (findall "item" root) as [|i items].
  - injection H as <-. constructor.
  - apply for_each_Forall2, H.
Qed.

Lemma detail_rating_shape (id ty : pystr) (d : rating_info) :
  detail id ty = Ok (Some d) ->
  star_rating_of d = no_rating
  \/ numeric_rating py_float_positive py_int (star_rating_of d).
Proof.
  unfold get_book_detail.
  destruct (item_lookup w id ty) as [e|e|root]; try discriminate.
  destruct (find "item" root) as [item|]; [|discriminate].
  assert (Hrank :
    match find "customerReviewRank" item with
    | None => Ok (Some {| star_rating_of := no_rating |})
    | Some review_rank_elem =>
        match text review_rank_elem with
        | Some ((_ :: _) as t) =>
            match py_int t with
            | None => Raise ValueError
            | Some n =>
                if (n >? 0)%Z
                then Ok (Some {| star_rating_of :=
                                   str_of_int n ++ out_of_10 |})
                else Ok (Some {| star_rating_of := no_rating |})
            end
        | _ => Ok (Some {| star_rating_of := no_rating |})
        end
    end = Ok (Some d) ->
    star_rating_of d = no_rating
    \/ numeric_rating py_float_positive py_int (star_rating_of d)).
  { destruct (find "customerReviewRank" item) as [re|];
      [|intros [= <-]; left; reflexivity].
    destruct (text re) as [[|c t]|];
      try (intros [= <-]; left; reflexivity).
    destruct (py_int (c :: t)) as [n|] eqn:En; [|discriminate].
    destruct (Z.gtb_spec n 0); intros [= <-];
      [|left; reflexivity].
    right. right. exists (c :: t), n. repeat split; assumption. }
  destruct (find "subInfo" item) as [si|]; [|exact Hrank].
  destruct (find "ratingInfo" si) as [ri|]; [|exact Hrank].
  destruct (find "ratingScore" ri) as [se|]; [|exact Hrank].
  destruct (text se) as [[|c s]|]; try exact Hrank.
  destruct (py_float_positive (c :: s)) as [[|]|] eqn:Ef;
    [|exact Hrank|discriminate].
  intros [= <-]. right. left. exists (c :: s).
  repeat split; [discriminate | exact Ef].
Qed.

Lemma numeric_rating_nonempty (s : pystr) :
  numeric_rating py_float_positive py_int s -> s <> [].
Proof.
  intros [(t & _ & _ & ->)|(t & n & _ & _ & ->)] H;
    apply app_eq_nil in H; destruct H; discriminate.
Qed.

(** C7.  Every candidate that [search_books_by_title] returns has a
    non-empty star rating: it is the sentinel "별점 정보 없음" or a
    rating that [get_book_detail] built from a number for the item's
    ISBN-13; it is the sentinel whenever the item has no ISBN-13 text
    and whenever the lookup returns [None]. *)
Theorem candidates_have_rating (q : pystr) (n : Z) (books : list book) :
  search q n = Ok books ->
  exists root,
    item_search w q n = Document root
    /\ Forall2
         (fun item b =>
            star_rating b <> []
            /\ (star_rating b = no_rating
                \/ exists id d,
                    isbn13_of item = Some id
                    /\ detail id ISBN13 = Ok (Some d)
                    /\ star_rating b = star_rating_of d
                    /\ numeric_rating py_float_positive py_int
                         (star_rating_of d))
            /\ (truthy (isbn13_of item) = false ->
                star_rating b = no_rating)
            /\ (forall id,
                   isbn13_of item = Some id ->
                   detail id ISBN13 = Ok None ->
                   star_rating b = no_rating))
         (findall "item" root) books.
Proof.
  intros H. destruct (search_ok_items _ _ H) as (root & Hdoc & Hall).
  exists root. split; [exact Hdoc|].
  eapply Forall2_impl; [|exact Hall].
  intros item b Hb. unfold book_of_item in Hb.
  assert (Hshape :
    star_rating b = no_rating
    \/ exists id d,
        isbn13_of item = Some id
        /\ detail id ISBN13 = Ok (Some d)
        /\ star_rating b = star_rating_of d
        /\ numeric_rating py_float_positive py_int (star_rating_of d)).
  { destruct (isbn13_of item) as [[|c id]|] eqn:Eid; cbn [bind] in Hb.
    - destruct (find "cover" item); [|discriminate].
      cbn [bind] in Hb. injection Hb as <-. left. reflexivity.
    - destruct (detail (c :: id) ISBN13) as [[d|]|e] eqn:Ed;
        [| |discriminate]; cbn [bind] in Hb;
        (destruct (find "cover" item); [|discriminate]);
        cbn [bind] in Hb; injection Hb as <-; cbn [star_rating].
      + destruct (detail_rating_shape _ _ Ed) as [Hs|Hs];
          [left; exact Hs|].
        right. exists (c :: id), d. auto.
      + left. reflexivity.
    - destruct (find "cover" item); [|discriminate].
      cbn [bind] in Hb. injection Hb as <-. left. reflexivity. }
  split; [|split; [exact Hshape|split]].
  - destruct Hshape as [->|(id & d & _ & _ & -> & Hn)];
      [discriminate | exact (numeric_rating_nonempty Hn)].
  - intros Hno.
    destruct (isbn13_of item) as [[|c id]|]; try discriminate Hno;
      cbn [bind] in Hb;
      (destruct (find "cover" item); [|discriminate]);
      cbn [bind] in Hb; injection Hb as <-; reflexivity.
  - intros id Hid Hnone. rewrite Hid in Hb.
    destruct id as [|c id]; cbn [bind] in Hb.
    + destruct (find "cover" item); [|discriminate].
      cbn [bind] in Hb. injection Hb as <-. reflexivity.
    + rewrite Hnone in Hb. cbn [bind] in Hb.
      destruct (find "cover" item); [|discriminate].
      cbn [bind] in Hb. injection Hb as <-. reflexivity.
Qed.

(** The fields of the candidates of a search that returns: one
    candidate per item, in document order, each field the child's text
    or the placeholder of an absent child. *)
Lemma search_candidates_fields (q : pystr) (n : Z) (books : list book) :
  search q n = Ok books ->
  exists root,
    item_search w q n = Document root
    /\ Forall2
         (fun item b =>
            title b = text_or no_title "title" item
            /\ author b = text_or no_author "author" item
            /\ description b = text_or no_description "description" item)
         (findall "item" root) books.
Proof.
  intros H. destruct (search_ok_items _ _ H) as (root & Hdoc & Hall).
  exists root. split; [exact Hdoc|].
  eapply Forall2_impl; [|exact Hall].
  intros item b Hb. unfold book_of_item in Hb.
  destruct (match isbn13_of item with
            | Some ((_ :: _) as id) =>
                details <- detail id ISBN13 ;;
                match details with
                | Some d => Ok (star_rating_of d)
                | None => Ok no_rating
                end
            | _ => Ok no_rating
            end) as [r|e]; [|discriminate].
  cbn [bind] in Hb. destruct (find "cover" item); [|discriminate].
  cbn [bind] in Hb. injection Hb as <-. repeat split.
Qed.

(** C6.  A request failure or a parse failure of the search request
    makes [search_books_by_title] raise a [BookSearchError] whose
    message contains the cause; a parsed answer without [item] elements
    makes it return the empty list; and on the empty list the workflow
    ends with the "no results" message for the query. *)
Theorem search_failure_policy (q : pystr) (n : Z) :
  (forall e,
      item_search w q n = RequestException e
      \/ item_search w q n = ParseError e ->
      exists m, search q n = Raise (BookSearchError m) /\ substring e m)
  /\ (forall root,
         item_search w q n = Document root ->
         findall "item" root = [] ->
         search q n = Ok [])
  /\ (search q 5 = Ok [] -> run q = Ok (NoResults q)).
Proof.
  split; [|split].
  - intros e [H|H]; unfold search_books_by_title; rewrite H;
      eexists; (split; [reflexivity|]);
      eexists _, []; rewrite app_nil_r; reflexivity.
  - intros root Hdoc Hitems. unfold search_books_by_title.
    rewrite Hdoc, Hitems. reflexivity.
  - intros H. unfold run_recommendation_workflow, workflow_body.
    rewrite H. reflexivity.
Qed.

(** C10.  When the first marker line of the generated text holds only
    white space after "추천 도서:", the parser returns the empty string,
    the matcher returns no candidate without looking at the list, and
    the run ends as unmatched with the generated text. *)
Theorem blank_title_is_unmatched (q g : pystr) (books : list book)
  (pre post : list pystr) (ws : pystr) :
  search q 5 = Ok books -> books <> [] ->
  get_gemini_recommendation w q books = Ok g ->
  splitlines g = pre ++ (title_marker ++ ws) :: post ->
  Forall unmarked pre -> Forall blank ws ->
  parse_recommended_book_title g = Some []
  /\ match_candidate (parse_recommended_book_title g) books = Ok None
  /\ run q = Ok (Unmatched g).
Proof.
  intros Hsearch Hne Hgen Hlines Hpre Hws.
  assert (Hparse : parse_recommended_book_title g = Some []).
  { rewrite (parse_marker_line _ _ _ Hlines Hpre).
    rewrite (remove_all_absent _ _ (blank_has_no_title_marker Hws)).
    rewrite (strip_blank Hws). reflexivity. }
  split; [exact Hparse|]. rewrite Hparse. split; [reflexivity|].
  unfold run_recommendation_workflow, workflow_body.
  rewrite Hsearch. cbn [bind]. destruct books as [|b books]; [congruence|].
  rewrite Hgen. cbn [bind]. rewrite Hparse. reflexivity.
Qed.

(** The other ends of a run: the two application errors are shown as
    an error message, and a search with candidates whose generated text
    matches none of them ends as unmatched. *)
Lemma workflow_error_paths (q : pystr) :
  (forall m, search q 5 = Raise (BookSearchError m) ->
             run q = Ok (Error (error_msg ++ m)))
  /\ (forall books m,
         search q 5 = Ok books -> books <> [] ->
         get_gemini_recommendation w q books
           = Raise (RecommendationError m) ->
         run q = Ok (Error (error_msg ++ m)))
  /\ (forall books g,
         search q 5 = Ok books -> books <> [] ->
         get_gemini_recommendation w q books = Ok g ->
         match_candidate (parse_recommended_book_title g) books = Ok None ->
         run q = Ok (Unmatched g)).
Proof.
  unfold run_recommendation_workflow, workflow_body.
  split; [|split].
  - intros m ->. reflexivity.
  - intros books m -> Hne Hgen.
    destruct books as [|b books]; [congruence|].
    cbn [bind]. rewrite Hgen. reflexivity.
  - intros books g -> Hne Hgen Hm.
    destruct books as [|b books]; [congruence|].
    cbn [bind]. rewrite Hgen. cbn [bind]. rewrite Hm. reflexivity.
Qed.

End Search.

(** ** Concrete runs *)

Section Runs.

Import Examples.

(** The run of C7's theorem on the search answer [two_items], whose
    lookups give a score of 9.2 and a review rank of 8. *)
Lemma candidates_have_rating_witness :
  exists a b,
    search' (world_of (Document two_items) (Generated response_b)) [] 5
      = Ok [a; b]
    /\ star_rating a = of_string "9.2 / 10.0"
    /\ star_rating b = of_string "8 / 10"
    /\ star_rating a <> [] /\ star_rating b <> [].
Proof.
  eexists. eexists. split; [reflexivity|].
  split; [reflexivity|]. split; [reflexivity|].
  destruct (@candidates_have_rating decimal_float_positive decimal_int
              (world_of (Document two_items) (Generated response_b))
              [] 5%Z _ eq_refl) as (root & _ & H).
  inversion H as [|? ? ? ? (Ha & _) H' E1 E2]; subst.
  inversion H' as [|? ? ? ? (Hb & _) _ E3 E4]; subst.
  split; assumption.
Defined.

(** The runs of C6's theorem: a request failure, an answer without
    items seen by the search, and the same answer seen by the workflow. *)
Lemma search_failure_policy_witness :
  (exists m,
      search' (world_of (RequestException (of_string "timeout"))
                 (Generated response_b)) (of_string "q") 5
        = Raise (BookSearchError m)
      /\ substring (of_string "timeout") m)
  /\ search' (world_of (Document no_items) (Generated response_b))
       (of_string "q") 5 = Ok []
  /\ run' (world_of (Document no_items) (Generated response_b))
       (of_string "q") = Ok (NoResults (of_string "q")).
Proof.
  split; [|split].
  - apply (proj1 (@search_failure_policy decimal_float_positive
                    decimal_int
                    (world_of (RequestException (of_string "timeout"))
                       (Generated response_b)) (of_string "q") 5%Z)).
    left. reflexivity.
  - apply (proj1 (proj2 (@search_failure_policy decimal_float_positive
                           decimal_int
                           (world_of (Document no_items)
                              (Generated response_b))
                           (of_string "q") 5%Z)) no_items);
      reflexivity.
  - apply (proj2 (proj2 (@search_failure_policy decimal_float_positive
                           decimal_int
                           (world_of (Document no_items)
                              (Generated response_b))
                           (of_string "q") 5%Z))).
    reflexivity.
Defined.

(** The run of C10's theorem on [two_items] and that response. *)
Lemma blank_title_is_unmatched_witness :
  run' (world_of (Document two_items) (Generated response_blank_title))
    (of_string "q")
  = Ok (Unmatched response_blank_title).
Proof.
  refine (proj2 (proj2 (@blank_title_is_unmatched decimal_float_positive
                          decimal_int
                          (world_of (Document two_items)
                             (Generated response_blank_title))
                          (of_string "q") response_blank_title _
                          [] [reason_marker ++ of_string " ok"]
                          [32; 32]%N eq_refl _ eq_refl eq_refl _ _))).
  - discriminate.
  - constructor.
  - repeat constructor.
Defined.

(** C2 at a failing input: the search answer holds one item without a
    [cover] child.  [item.find('cover', ns).text] raises
    [AttributeError]; it is no [BookSearchError], so it leaves
    [search_books_by_title] and then the workflow. *)
Theorem workflow_attribute_error_escapes
  (py_float_positive : pystr -> option bool) (py_int : pystr -> option Z) :
  run_recommendation_workflow py_float_positive py_int
    (world_of (Document item_without_cover) (Generated response_b))
    (of_string "q")
  = Raise AttributeError.
Proof. reflexivity. Qed.

(** C8 at a failing input: for the same answer the search returns no
    list at all, although the item has a title, an author and a
    description. *)
Theorem search_item_without_cover_raises
  (py_float_positive : pystr -> option bool) (py_int : pystr -> option Z) :
  findall "item" item_without_cover
    = [ node "item" [ leaf "title" alchemist; leaf "author" (of_string "B");
                      leaf "description" (of_string "d2") ] ]
  /\ search_books_by_title py_float_positive py_int
       (world_of (Document item_without_cover) (Generated response_b))
       (of_string "q") 5
     = Raise AttributeError.
Proof. split; reflexivity. Qed.

End Runs.

(** * Further properties of the pipeline *)

(** ** More facts about the string operations *)

Section MoreStringFacts.

Lemma lstrip_head (s r : pystr) (c : N) :
  lstrip s = c :: r -> isspace c = false.
Proof.
  induction s as [|x s IH]; cbn [lstrip]; [discriminate|].
  destruct (isspace x) eqn:Ex; [exact IH|].
  intros [= <- _]. exact Ex.
Qed.

Lemma rstrip_prefix (t : pystr) :
  exists b, t = rstrip t ++ b /\ Forall blank b.
Proof.
  destruct (lstrip_decompose (rev t)) as (b & Hb & Hblank).
  exists (rev b). split; [|apply Forall_rev, Hblank].
  unfold rstrip. rewrite <- rev_app_distr, <- Hb, rev_involutive.
  reflexivity.
Qed.

Lemma strip_trimmed (s : pystr) : trimmed (strip s).
Proof.
  intros c r. split; intros H.
  - destruct (rstrip_prefix (lstrip s)) as (b & Hb & _).
    fold (strip s) in Hb. rewrite H in Hb.
    exact (lstrip_head _ Hb).
  - unfold strip, rstrip in H.
    apply (f_equal (@rev N)) in H.
    rewrite rev_involutive, rev_app_distr in H.
    exact (lstrip_head _ H).
Qed.

Lemma lstrip_Forall (P : N -> Prop) (s : pystr) :
  Forall P s -> Forall P (lstrip s).
Proof.
  induction 1 as [|c s Hc Hs IH]; cbn [lstrip]; [constructor|].
  destruct (isspace c); [exact IH | constructor; assumption].
Qed.

Lemma strip_Forall (P : N -> Prop) (s : pystr) :
  Forall P s -> Forall P (strip s).
Proof.
  intros H. unfold strip, rstrip.
  apply Forall_rev, lstrip_Forall, Forall_rev, lstrip_Forall, H.
Qed.

Lemma remove_go_Forall (P : N -> Prop) (old s : pystr) (k : nat) :
  Forall P s -> Forall P (remove_go old k s).
Proof.
  intros H. revert k.
  induction H as [|c s Hc Hs IH]; intros k; cbn [remove_go];
    [constructor|].
  destruct k; [|apply IH].
  destruct (startswith (c :: s) old); [apply IH|].
  constructor; [exact Hc | apply IH].
Qed.

Lemma remove_all_Forall (P : N -> Prop) (old s : pystr) :
  Forall P s -> Forall P (remove_all old s).
Proof.
  intros H. destruct old; [exact H|]. apply remove_go_Forall, H.
Qed.

Lemma splitlines_lines_inline_upto (n : nat) (s : pystr) :
  List.length s <= n -> Forall (Forall inline) (splitlines s).
Proof.
  revert s. induction n as [|n IH]; intros s Hlen.
  - destruct s; [constructor | cbn in Hlen; lia].
  - destruct s as [|c rest]; [constructor|].
    cbn [List.length] in Hlen. cbn [splitlines].
    destruct (is_linebreak c) eqn:Ec.
    + constructor; [constructor|].
      destruct rest as [|d rest']; [constructor|].
      cbn [List.length] in Hlen.
      destruct ((c =? CR)%N && (d =? LF)%N); apply IH;
        cbn [List.length]; lia.
    + assert (Hrest : Forall (Forall inline) (splitlines rest))
        by (apply IH; lia).
      destruct (splitlines rest) as [|l ls].
      * repeat constructor. exact Ec.
      * inversion Hrest as [|? ? Hl Hls]; subst.
        constructor; [constructor; assumption | exact Hls].
Qed.

Lemma splitlines_lines_inline (s : pystr) :
  Forall (Forall inline) (splitlines s).
Proof. exact (@splitlines_lines_inline_upto _ s (Nat.le_refl _)). Qed.

End MoreStringFacts.

(** ** Rationale shown with a matched candidate *)

Section RationaleText.







Lemma strip_trimmed_from (s : pystr) : trimmed_from s (strip s).
Proof.
  destruct (strip_decompose s) as (a & b & E & Ha & Hb).
  exists a, b. repeat split; try assumption; apply strip_trimmed.
Qed.






End RationaleText.

(** ** Recommendation requester *)

Section Requester.

Variable w : world.

Lemma substring_middle (a x y z : pystr) :
  substring a y -> substring a (x ++ y ++ z).
Proof.
  intros (pre & post & ->). exists (x ++ pre), (post ++ z).
  rewrite <- !app_assoc. reflexivity.
Qed.

Lemma book_list_str_cons (i : nat) (b : book) (rest : list book) :
  book_list_str i (b :: rest) = book_block i b ++ book_list_str (S i) rest.
Proof. reflexivity. Qed.

Lemma book_list_str_block (books : list book) (i k : nat) (b : book) :
  nth_error books k = Some b ->
  substring (book_block (i + k) b) (book_list_str i books).
Proof.
  revert i k. induction books as [|b0 books IH]; intros i k H.
  - destruct k; discriminate.
  - rewrite book_list_str_cons. destruct k as [|k]; cbn [nth_error] in H.
    + injection H as ->. rewrite Nat.add_0_r.
      exists [], (book_list_str (S i) books). reflexivity.
    + replace (i + S k) with (S i + k) by lia.
      destruct (IH (S i) k H) as (pre & post & E). rewrite E.
      exists (book_block i b0 ++ pre), post.
      rewrite <- app_assoc. reflexivity.
Qed.

Lemma prompt_contents (q : pystr) (books : list book) :
  let prompt := prompt_head ++ q ++ prompt_mid
                  ++ book_list_str 0 books ++ prompt_tail in
  substring ([34%N] ++ q ++ [34%N]) prompt
  /\ forall k b,
       nth_error books k = Some b -> substring (book_block k b) prompt.
Proof.
  cbv zeta. split.
  - pose (h := removelast prompt_head). pose (m := tl prompt_mid).
    assert (Eh : prompt_head = h ++ [34%N]) by reflexivity.
    assert (Em : prompt_mid = 34%N :: m) by reflexivity.
    clearbody h m.
    exists h, (m ++ book_list_str 0 books ++ prompt_tail).
    rewrite Eh, Em, <- !app_assoc. reflexivity.
  - intros k b H. rewrite !app_assoc. rewrite <- app_assoc.
    apply substring_middle. exact (book_list_str_block _ 0 _ H).
Qed.

(** The requester sends the generative service one prompt, which quotes
    the user's query and lists every book, and answers by what the
    service does with it: when the service returns a text, the
    requester returns that text without the white space at its two
    ends; when the service fails, the requester raises a
    [RecommendationError] whose message is "AI 추천 생성 중 오류가
    발생했습니다: " followed by the cause. *)
Theorem recommendation_text_or_error (q : pystr) (books : list book) :
  exists prompt,
    substring ([34%N] ++ q ++ [34%N]) prompt
    /\ (forall k b,
          nth_error books k = Some b -> substring (book_block k b) prompt)
    /\ match generate_content w prompt with
       | Generated reply =>
           exists g,
             get_gemini_recommendation w q books = Ok g
             /\ trimmed_from reply g
       | GenerateFailed cause =>
           get_gemini_recommendation w q books
           = Raise (RecommendationError (generate_error_msg ++ cause))
       end.
Proof.
  destruct (prompt_contents q books) as [Hq Hb].
  unfold get_gemini_recommendation.
  set (prompt := prompt_head ++ q ++ prompt_mid
                   ++ book_list_str 0 books ++ prompt_tail) in *.
  exists prompt. split; [exact Hq|]. split; [exact Hb|].
  destruct (generate_content w prompt) as [cause|reply];
    [reflexivity|].
  exists (strip reply). split; [reflexivity | apply strip_trimmed_from].
Qed.

(** A text comes back only from a prompt that quotes the user's query
    and holds, for every book of the list, its block numbered from 1:
    title, author, description and star rating. *)
Theorem prompt_lists_every_book (q g : pystr) (books : list book) :
  get_gemini_recommendation w q books = Ok g ->
  exists prompt reply,
    generate_content w prompt = Generated reply
    /\ g = strip reply
    /\ substring ([34%N] ++ q ++ [34%N]) prompt
    /\ forall k b,
         nth_error books k = Some b -> substring (book_block k b) prompt.
Proof.
  unfold get_gemini_recommendation.
  set (prompt := prompt_head ++ q ++ prompt_mid
                   ++ book_list_str 0 books ++ prompt_tail).
  destruct (generate_content w prompt) as [cause|reply] eqn:E;
    [discriminate|].
  intros [= <-]. exists prompt, reply. repeat split; [exact E | |].
  - pose (h := removelast prompt_head). pose (m := tl prompt_mid).
    assert (Eh : prompt_head = h ++ [34%N]) by reflexivity.
    assert (Em : prompt_mid = 34%N :: m) by reflexivity.
    clearbody h m.
    exists h, (m ++ book_list_str 0 books ++ prompt_tail).
    unfold prompt. rewrite Eh, Em, <- !app_assoc. reflexivity.
  - intros k b H. unfold prompt.
    rewrite !app_assoc. rewrite <- app_assoc.
    apply substring_middle. exact (book_list_str_block _ 0 _ H).
Qed.

End Requester.

(** The run of the prompt theorem on one candidate. *)
Lemma prompt_lists_every_book_witness :
  exists prompt,
    substring (book_block 0 MoreExamples.book_alchemist) prompt
    /\ substring ([34%N] ++ of_string "q" ++ [34%N]) prompt.
Proof.
  destruct (@prompt_lists_every_book
              (Examples.world_of (Document Examples.two_items)
                 (Generated Examples.response_b))
              (of_string "q") Examples.response_b
              [MoreExamples.book_alchemist] eq_refl)
    as (prompt & reply & _ & _ & Hq & Hb).
  exists prompt. split; [|exact Hq]. apply Hb. reflexivity.
Defined.

(** ** What the parser and the card cut out of the response *)

Section Cuts.

(** A parsed title is one line without white space at either end: it
    holds no line boundary and does not start or end with a blank. *)
Theorem parsed_title_is_one_trimmed_line (g t : pystr) :
  parse_recommended_book_title g = Some t ->
  Forall inline t /\ trimmed t.
Proof.
  unfold parse_recommended_book_title.
  generalize (splitlines_lines_inline g).
  induction (splitlines g) as [|l ls IH]; cbn [first_title_line];
    [discriminate|].
  intros Hall. inversion Hall as [|? ? Hl Hls]; subst.
  destruct (startswith l title_marker); [|exact (IH Hls)].
  intros [= <-]. split; [|apply strip_trimmed].
  apply strip_Forall, remove_go_Forall, Hl.
Qed.

Lemma parsed_title_is_one_trimmed_line_witness :
  Forall inline Examples.alchemist /\ trimmed Examples.alchemist.
Proof.
  exact (@parsed_title_is_one_trimmed_line Examples.response_b
           Examples.alchemist eq_refl).
Defined.

End Cuts.

(** ** Detail lookup and search: when they return and when they raise *)

Section LookupAndSearch.

Variable py_float_positive : pystr -> option bool.
Variable py_int : pystr -> option Z.
Variable w : world.

Local Abbreviation detail := (get_book_detail py_float_positive py_int w).
Local Abbreviation search := (search_books_by_title py_float_positive py_int w).
Local Abbreviation candidate := (book_of_item py_float_positive py_int w).

Lemma detail_raise_is_value_error (id ty : pystr) (e : exn) :
  detail id ty = Raise e -> e = ValueError.
Proof.
  unfold get_book_detail.
  destruct (item_lookup w id ty) as [c|c|root]; try discriminate.
  destruct (find "item" root) as [item|]; [|discriminate].
  destruct (find "customerReviewRank" item) as [re|];
    [destruct (text re) as [[|c t]|];
       [|destruct (py_int (c :: t)) as [n|];
           [destruct (n >? 0)%Z|]|]|];
    (destruct (find "subInfo" item) as [si|]; [|congruence]);
    (destruct (find "ratingInfo" si) as [ri|]; [|congruence]);
    (destruct (find "ratingScore" ri) as [se|]; [|congruence]);
    (destruct (text se) as [[|c' s]|]; try congruence);
    destruct (py_float_positive (c' :: s)) as [[|]|]; congruence.
Qed.

(** [get_book_detail] raises nothing but [ValueError], and only on a
    parsed answer with an item whose rating-score text or review-rank
    text is non-empty and cannot be read as a number. *)
Theorem detail_raises_only_value_error (id ty : pystr) (e : exn) :
  detail id ty = Raise e ->
  e = ValueError
  /\ exists root item t,
      item_lookup w id ty = Document root
      /\ find "item" root = Some item
      /\ t <> []
      /\ ((score_text item = Some t /\ py_float_positive t = None)
          \/ (rank_text item = Some t /\ py_int t = None)).
Proof.
  intros H. unfold get_book_detail in H.
  destruct (item_lookup w id ty) as [c|c|root] eqn:Edoc;
    try discriminate.
  destruct (find "item" root) as [item|] eqn:Eitem; [|discriminate].
  assert (Hrank :
    match find "customerReviewRank" item with
    | None => Ok (Some {| star_rating_of := no_rating |})
    | Some review_rank_elem =>
        match text review_rank_elem with
        | Some ((_ :: _) as t) =>
            match py_int t with
            | None => Raise ValueError
            | Some n =>
                if (n >? 0)%Z
                then Ok (Some {| star_rating_of :=
                                   str_of_int n ++ out_of_10 |})
                else Ok (Some {| star_rating_of := no_rating |})
            end
        | _ => Ok (Some {| star_rating_of := no_rating |})
        end
    end = Raise e ->
    e = ValueError
    /\ exists root0 item0 t,
        Document root = Document root0
        /\ find "item" root0 = Some item0
        /\ t <> []
        /\ ((score_text item0 = Some t /\ py_float_positive t = None)
            \/ (rank_text item0 = Some t /\ py_int t = None))).
  { intros Hr.
    assert (e = ValueError
            /\ exists t, t <> [] /\ rank_text item = Some t
                         /\ py_int t = None) as (-> & t & Hne & Ht & Hi).
    { unfold rank_text.
      destruct (find "customerReviewRank" item) as [re|];
        [|discriminate].
      destruct (text re) as [[|x t]|]; try discriminate.
      destruct (py_int (x :: t)) as [n|] eqn:En.
      - destruct (n >? 0)%Z; discriminate.
      - injection Hr as <-. split; [reflexivity|]. exists (x :: t).
        repeat split; [discriminate | exact En]. }
    split; [reflexivity|]. exists root, item, t.
    repeat split; [exact Eitem | exact Hne |].
    right. split; assumption. }
  destruct (find "subInfo" item) as [si|] eqn:Esi; [|exact (Hrank H)].
  destruct (find "ratingInfo" si) as [ri|] eqn:Eri; [|exact (Hrank H)].
  destruct (find "ratingScore" ri) as [se|] eqn:Ese; [|exact (Hrank H)].
  destruct (text se) as [[|x s]|] eqn:Et; try exact (Hrank H).
  destruct (py_float_positive (x :: s)) as [[|]|] eqn:Ef;
    [discriminate | exact (Hrank H) |].
  injection H as <-. split; [reflexivity|].
  exists root, item, (x :: s).
  repeat split; [exact Eitem | discriminate|].
  left. split; [|exact Ef].
  unfold score_text. rewrite Esi, Eri, Ese. exact Et.
Qed.

(** [get_book_detail] returns [None] exactly when the request or the
    parse fails or the answer holds no item; an answer with an item
    never gives [None]. *)
Theorem detail_none_iff (id ty : pystr) :
  detail id ty = Ok None
  <-> (exists c, item_lookup w id ty = RequestException c
                 \/ item_lookup w id ty = ParseError c)
      \/ (exists root, item_lookup w id ty = Document root
                       /\ find "item" root = None).
Proof.
  unfold get_book_detail.
  destruct (item_lookup w id ty) as [c|c|root].
  - split; [|reflexivity]. intros _. left. exists c. left. reflexivity.
  - split; [|reflexivity]. intros _. left. exists c. right. reflexivity.
  - destruct (find "item" root) as [item|] eqn:Eitem.
    + split.
      * intros H. exfalso. revert H.
        destruct (find "customerReviewRank" item) as [re|];
          [destruct (text re) as [[|c t]|];
             [|destruct (py_int (c :: t)) as [n|];
                 [destruct (n >? 0)%Z|]|]|];
          (destruct (find "subInfo" item) as [si|]; [|discriminate]);
          (destruct (find "ratingInfo" si) as [ri|]; [|discriminate]);
          (destruct (find "ratingScore" ri) as [se|]; [|discriminate]);
          (destruct (text se) as [[|c' s]|]; try discriminate);
          destruct (py_float_positive (c' :: s)) as [[|]|];
          discriminate.
      * intros [(c & [H|H])|(root' & [= <-] & H)]; try discriminate.
        congruence.
    + split; [|reflexivity]. intros _. right. exists root.
      split; [reflexivity | exact Eitem].
Qed.

Lemma for_each_ok (A B : Type) (f : A -> result B) (l : list A) :
  Forall (fun x => exists y, f x = Ok y) l ->
  exists ys, for_each f l = Ok ys.
Proof.
  induction 1 as [|x l (y & Hy) _ (ys & Hys)]; cbn [for_each].
  - eexists. reflexivity.
  - rewrite Hy. cbn [bind]. rewrite Hys. eexists. reflexivity.
Qed.

Lemma for_each_raise (A B : Type) (f : A -> result B) (l : list A)
  (e : exn) :
  for_each f l = Raise e -> exists x, In x l /\ f x = Raise e.
Proof.
  induction l as [|x l IH]; cbn [for_each]; [discriminate|].
  destruct (f x) as [y|e'] eqn:Ex; cbn [bind].
  - destruct (for_each f l) as [ys|e'']; [discriminate|].
    cbn [bind]. intros [= <-].
    destruct (IH eq_refl) as (x' & Hin & Hx').
    exists x'. split; [right; exact Hin | exact Hx'].
  - intros [= <-]. exists x. split; [left; reflexivity | exact Ex].
Qed.

Lemma candidate_raise (item : element) (e : exn) :
  candidate item = Raise e ->
  (e = AttributeError /\ find "cover" item = None)
  \/ (e = ValueError
      /\ exists id, isbn13_of item = Some id /\ id <> []
                    /\ detail id ISBN13 = Raise ValueError).
Proof.
  unfold book_of_item.
  destruct (isbn13_of item) as [[|c id]|] eqn:Eid; cbn [bind].
  - destruct (find "cover" item); [discriminate|].
    intros [= <-]. left. split; reflexivity.
  - destruct (detail (c :: id) ISBN13) as [[d|]|e'] eqn:Ed; cbn [bind].
    + destruct (find "cover" item); [discriminate|].
      intros [= <-]. left. split; reflexivity.
    + destruct (find "cover" item); [discriminate|].
      intros [= <-]. left. split; reflexivity.
    + intros [= <-].
      pose proof (@detail_raise_is_value_error _ _ _ Ed) as He.
      subst e'.
      right. split; [reflexivity|]. exists (c :: id).
      repeat split; [discriminate | exact Ed].
  - destruct (find "cover" item); [discriminate|].
    intros [= <-]. left. split; reflexivity.
Qed.

(** When the search answer parses, every item has a [cover] child and
    no lookup for an item's ISBN-13 raises, the search returns one
    candidate per item, in document order, with the item's title,
    author and description (or their placeholders) and its cover text. *)
Theorem search_returns_for_complete_items (q : pystr) (n : Z)
  (root : element) :
  item_search w q n = Document root ->
  Forall (fun item =>
            find "cover" item <> None
            /\ forall id, isbn13_of item = Some id -> id <> [] ->
                          exists r, detail id ISBN13 = Ok r)
    (findall "item" root) ->
  exists books,
    search q n = Ok books
    /\ Forall2
         (fun item b =>
            title b = text_or no_title "title" item
            /\ author b = text_or no_author "author" item
            /\ description b = text_or no_description "description" item
            /\ exists c, find "cover" item = Some c /\ cover_url b = text c)
         (findall "item" root) books.
Proof.
  intros Hdoc Hall.
  assert (Hok : Forall (fun item => exists b, candidate item = Ok b)
                  (findall "item" root)).
  { eapply Forall_impl; [|exact Hall]. intros item (Hcover & Hid).
    unfold book_of_item.
    destruct (find "cover" item) as [c|]; [|congruence].
    destruct (isbn13_of item) as [[|x id]|]; cbn [bind];
      try (eexists; reflexivity).
    destruct (Hid (x :: id) eq_refl) as (r & ->); [discriminate|].
    cbn [bind]. destruct r; eexists; reflexivity. }
  destruct (@for_each_ok _ _ _ _ Hok) as (books & Hbooks).
  assert (Hs : search q n = Ok books).
  { unfold search_books_by_title. rewrite Hdoc.
    destruct (findall "item" root); [|exact Hbooks].
    cbn [for_each] in Hbooks. exact Hbooks. }
  exists books. split; [exact Hs|].
  eapply Forall2_impl; [|exact (@for_each_Forall2 _ _ _ _ _ Hbooks)].
  intros item b Hb. unfold book_of_item in Hb.
  destruct (match isbn13_of item with
            | Some ((_ :: _) as id) =>
                details <- detail id ISBN13 ;;
                match details with
                | Some d => Ok (star_rating_of d)
                | None => Ok no_rating
                end
            | _ => Ok no_rating
            end) as [r|e]; [|discriminate].
  cbn [bind] in Hb. destruct (find "cover" item) as [c|]; [|discriminate].
  cbn [bind] in Hb. injection Hb as <-. repeat split.
  exists c. split; reflexivity.
Qed.

Lemma search_raise_kind (q : pystr) (n : Z) (e : exn) :
  search q n = Raise e ->
  (exists m, e = BookSearchError m) \/ e = ValueError
  \/ e = AttributeError.
Proof.
  unfold search_books_by_title.
  destruct (item_search w q n) as [c|c|root].
  - intros [= <-]. left. eexists. reflexivity.
  - intros [= <-]. left. eexists. reflexivity.
  - destruct (findall "item" root) as [|i items]; [discriminate|].
    intros H. destruct (@for_each_raise _ _ _ _ _ H) as (item & _ & Hi).
    destruct (@candidate_raise _ _ Hi) as [(-> & _)|(-> & _)]; auto.
Qed.

(** The search raises in three ways only: a [BookSearchError] when the
    request or the parse fails, an [AttributeError] for an item without
    [cover] child, and a [ValueError] that a lookup for an item's
    ISBN-13 raised. *)
Theorem search_raises_only (q : pystr) (n : Z) (e : exn) :
  search q n = Raise e ->
  (exists c,
      (item_search w q n = RequestException c
       /\ e = BookSearchError (network_error_msg ++ c))
      \/ (item_search w q n = ParseError c
          /\ e = BookSearchError (parse_error_msg ++ c)))
  \/ (exists root item,
         item_search w q n = Document root
         /\ In item (findall "item" root)
         /\ ((e = AttributeError /\ find "cover" item = None)
             \/ (e = ValueError
                 /\ exists id, isbn13_of item = Some id /\ id <> []
                               /\ detail id ISBN13 = Raise ValueError))).
Proof.
  unfold search_books_by_title.
  destruct (item_search w q n) as [c|c|root] eqn:Edoc.
  - intros [= <-]. left. exists c. left. split; reflexivity.
  - intros [= <-]. left. exists c. right. split; reflexivity.
  - intros H. right. exists root.
    destruct (findall "item" root) as [|i items] eqn:Eitems;
      [discriminate|].
    destruct (@for_each_raise _ _ _ _ _ H) as (item & Hin & Hitem).
    exists item. repeat split; [exact Hin|].
    exact (@candidate_raise _ _ Hitem).
Qed.

End LookupAndSearch.

(** The runs of the three theorems with a hypothesis: a review rank
    that is no number, the two complete items of [two_items], and the
    item without [cover] child. *)
Lemma detail_raises_only_value_error_witness :
  exists t,
    t <> []
    /\ rank_text (Examples.node "item"
                    [Examples.leaf "customerReviewRank" (of_string "N/A")])
       = Some t
    /\ decimal_int t = None.
Proof.
  destruct (@detail_raises_only_value_error decimal_float_positive
              decimal_int
              (Examples.world_lookup
                 (Document (Examples.detail_rank_only (of_string "N/A"))))
              Examples.isbn_a ISBN13 ValueError eq_refl)
    as (_ & root & item & t & Hdoc & Hitem & Hne & H).
  injection Hdoc as <-. injection Hitem as <-.
  destruct H as [(H & _)|(H & Hi)]; [discriminate H|].
  exists t. auto.
Defined.

Lemma search_returns_for_complete_items_witness :
  exists a b,
    Examples.search' (Examples.world_of (Document Examples.two_items)
                        (Generated Examples.response_b)) [] 5
      = Ok [a; b]
    /\ title a = Some Examples.small_things
    /\ title b = Some Examples.alchemist.
Proof.
  destruct (@search_returns_for_complete_items decimal_float_positive
              decimal_int
              (Examples.world_of (Document Examples.two_items)
                 (Generated Examples.response_b))
              [] 5%Z Examples.two_items eq_refl)
    as (books & Hs & Hall).
  - repeat constructor; try discriminate;
      intros id [= <-] _; eexists; reflexivity.
  - inversion Hall as [|? a ? l (Ha & _) Hall' E1 E2]; subst.
    inversion Hall' as [|? b ? l' (Hb & _) Hall'' E1 E2]; subst.
    inversion Hall''; subst.
    exists a, b. repeat split; assumption.
Defined.

Lemma search_raises_only_witness :
  exists item,
    In item (findall "item" Examples.item_without_cover)
    /\ find "cover" item = None.
Proof.
  destruct (@search_raises_only decimal_float_positive decimal_int
              (Examples.world_of (Document Examples.item_without_cover)
                 (Generated Examples.response_b))
              (of_string "q") 5%Z AttributeError eq_refl)
    as [(c & [(H & _)|(H & _)])|(root & item & Hdoc & Hin & H)];
    try discriminate H.
  injection Hdoc as <-.
  destruct H as [(_ & H)|(H & _)]; [|discriminate H].
  exists item. split; assumption.
Defined.

(** ** Matcher: what it returns and when it raises *)

Section MatcherMore.

Lemma contains_refl (t : pystr) : contains t t = true.
Proof. apply contains_spec. exists [], []. now rewrite app_nil_r. Qed.

Lemma match_loop_some (t : pystr) (books : list book) (b : book) :
  match_loop t books = Ok (Some b) -> In b books /\ qualifies t b.
Proof.
  induction books as [|b0 books IH]; cbn [match_loop]; [discriminate|].
  destruct (title b0) as [bt|] eqn:Et; [|discriminate].
  destruct (contains t bt || contains bt t) eqn:Eq.
  - intros [= <-]. split; [left; reflexivity|].
    apply qualifiesb_spec. unfold qualifiesb. rewrite Et. exact Eq.
  - intros H. destruct (IH H) as [Hin Hq].
    split; [right; exact Hin | exact Hq].
Qed.

Lemma match_loop_raise (t : pystr) (books : list book) (e : exn) :
  match_loop t books = Raise e <->
  e = TypeError
  /\ exists l1 b l2,
      books = l1 ++ b :: l2 /\ title b = None
      /\ Forall (fun y => title y <> None /\ ~ qualifies t y) l1.
Proof.
  induction books as [|b0 books IH]; cbn [match_loop].
  - split; [discriminate|].
    intros (_ & [|? ?] & ? & ? & [=] & _).
  - destruct (title b0) as [bt|] eqn:Et.
    + destruct (contains t bt || contains bt t) eqn:Eq.
      * split; [discriminate|].
        intros (_ & [|y l1] & b & l2 & E & Hb & Hl1).
        -- injection E as <- _. congruence.
        -- injection E as <- _. inversion Hl1 as [|? ? (_ & Hy) _]; subst.
           exfalso. apply Hy, qualifiesb_spec.
           unfold qualifiesb. rewrite Et. exact Eq.
      * rewrite IH. split.
        -- intros (-> & l1 & b & l2 & -> & Hb & Hl1).
           split; [reflexivity|]. exists (b0 :: l1), b, l2.
           repeat split; [exact Hb|]. constructor; [|exact Hl1].
           split; [congruence|]. apply not_qualifies_iff.
           unfold qualifiesb. rewrite Et. exact Eq.
        -- intros (-> & [|y l1] & b & l2 & E & Hb & Hl1).
           ++ injection E as <- _. congruence.
           ++ injection E as <- ->. split; [reflexivity|].
              exists l1, b, l2. repeat split; [exact Hb|].
              inversion Hl1; assumption.
    + split.
      * intros [= <-]. split; [reflexivity|]. exists [], b0, books.
        repeat split; [exact Et | constructor].
      * intros (-> & _). reflexivity.
Qed.

(** The matcher raises exactly when the parsed title is non-empty and
    the list holds a candidate without title text before any candidate
    that matches; what it raises is a [TypeError]. *)
Theorem matcher_raises_iff (parsed : option pystr) (books : list book)
  (e : exn) :
  match_candidate parsed books = Raise e <->
  e = TypeError
  /\ exists t l1 b l2,
      parsed = Some t /\ t <> [] /\ books = l1 ++ b :: l2
      /\ title b = None
      /\ Forall (fun y => title y <> None /\ ~ qualifies t y) l1.
Proof.
  destruct parsed as [[|c t]|]; cbn [match_candidate].
  - split; [discriminate|]. intros (_ & t & ? & ? & ? & [= <-] & Ht & _).
    congruence.
  - rewrite match_loop_raise. split.
    + intros (-> & l1 & b & l2 & H). split; [reflexivity|].
      exists (c :: t), l1, b, l2. repeat split; try apply H. discriminate.
    + intros (-> & t' & l1 & b & l2 & [= <-] & _ & H).
      split; [reflexivity|]. exists l1, b, l2. exact H.
  - split; [discriminate|]. intros (_ & t & ? & ? & ? & [=] & _).
Qed.

(** A candidate whose title is exactly the parsed title is always
    reached or preceded by the answer: when the candidates before it
    have title text, the matcher returns a matching candidate at its
    position or an earlier one. *)
Theorem matcher_exact_title (t : pystr) (l1 l2 : list book) (b : book) :
  t <> [] ->
  Forall (fun y => title y <> None) l1 ->
  title b = Some t ->
  exists l1' b' l2',
    l1 ++ b :: l2 = l1' ++ b' :: l2'
    /\ List.length l1' <= List.length l1
    /\ qualifies t b'
    /\ match_candidate (Some t) (l1 ++ b :: l2) = Ok (Some b').
Proof.
  intros Ht Hl1 Hb. destruct t as [|c t]; [congruence|].
  cbn [match_candidate]. clear Ht.
  induction Hl1 as [|y l1 Hy _ IH]; cbn [app match_loop].
  - rewrite Hb, contains_refl. cbn [orb].
    exists [], b, l2. repeat split; [constructor|].
    exists (c :: t). split; [exact Hb|]. left. exists [], [].
    now rewrite app_nil_r.
  - destruct (title y) as [yt|] eqn:Ey; [|congruence].
    destruct (contains (c :: t) yt || contains yt (c :: t)) eqn:Eq.
    + exists [], y, (l1 ++ b :: l2).
      repeat split; [cbn; lia|].
      apply qualifiesb_spec. unfold qualifiesb. rewrite Ey. exact Eq.
    + destruct IH as (l1' & b' & l2' & E & Hlen & Hq & Hm).
      exists (y :: l1'), b', l2'.
      split; [cbn [app]; rewrite E; reflexivity|].
      repeat split; [cbn; lia | exact Hq | exact Hm].
Qed.

End MatcherMore.

Lemma matcher_exact_title_witness :
  exists l1' b' l2',
    [MoreExamples.book_small_things; MoreExamples.book_alchemist;
     MoreExamples.book_untitled] = l1' ++ b' :: l2'
    /\ List.length l1' <= 1
    /\ qualifies Examples.alchemist b'
    /\ match_candidate (Some Examples.alchemist)
         [MoreExamples.book_small_things; MoreExamples.book_alchemist;
          MoreExamples.book_untitled]
       = Ok (Some b').
Proof.
  apply (@matcher_exact_title Examples.alchemist
           [MoreExamples.book_small_things]
           [MoreExamples.book_untitled] MoreExamples.book_alchemist).
  - discriminate.
  - repeat constructor. discriminate.
  - reflexivity.
Defined.

(** ** Workflow: what each end of a run means *)

Section WorkflowEnds.

Variable py_float_positive : pystr -> option bool.
Variable py_int : pystr -> option Z.
Variable w : world.

Local Abbreviation search := (search_books_by_title py_float_positive py_int w).
Local Abbreviation run := (run_recommendation_workflow py_float_positive py_int w).

(** A resolved run shows a candidate of the search result whose title
    contains the non-empty parsed title or is contained in it, with the
    rationale cut out of the same generated text. *)
Theorem resolved_is_a_matching_candidate (q r : pystr) (b : book) :
  run q = Ok (Resolved b r) ->
  exists books g t,
    search q 5 = Ok books /\ In b books
    /\ get_gemini_recommendation w q books = Ok g
    /\ parse_recommended_book_title g = Some t /\ t <> []
    /\ qualifies t b /\ r = reason_of g.
Proof.
  unfold run_recommendation_workflow, workflow_body.
  destruct (search q 5) as [[|b0 books]|e] eqn:Es; cbn [bind].
  - discriminate.
  - destruct (get_gemini_recommendation w q (b0 :: books)) as [g|e]
      eqn:Eg; cbn [bind].
    + destruct (parse_recommended_book_title g) as [[|c t]|] eqn:Ep;
        cbn [match_candidate bind]; try discriminate.
      destruct (match_loop (c :: t) (b0 :: books)) as [[b'|]|e] eqn:Em;
        cbn [bind]; try discriminate.
      * intros [= <- <-].
        destruct (match_loop_some _ _ Em) as [Hin Hq].
        exists (b0 :: books), g, (c :: t).
        repeat split; try assumption. discriminate.
      * destruct e; discriminate.
    + destruct e; discriminate.
  - destruct e; discriminate.
Qed.

(** The "no results" end is reached exactly when the search returns the
    empty list, and it names the submitted query. *)
Theorem no_results_iff (q q' : pystr) :
  run q = Ok (NoResults q') <-> q' = q /\ search q 5 = Ok [].
Proof.
  unfold run_recommendation_workflow, workflow_body.
  destruct (search q 5) as [[|b0 books]|e]; cbn [bind].
  - split; [intros [= <-]; split; reflexivity | intros [-> _]; reflexivity].
  - split; [|intros [_ [=]]].
    destruct (get_gemini_recommendation w q (b0 :: books)) as [g|e];
      cbn [bind]; [|destruct e; discriminate].
    destruct (match_candidate (parse_recommended_book_title g)
                (b0 :: books)) as [[b'|]|e]; cbn [bind];
      try discriminate.
    destruct e; discriminate.
  - split; [destruct e; discriminate | intros [_ [=]]].
Qed.

(** An exception leaves the run only as a [ValueError] or an
    [AttributeError] that the search raised, or as the [TypeError] of
    the matcher; neither [BookSearchError] nor [RecommendationError]
    ever leaves it. *)
Theorem run_raises_only (q : pystr) (e : exn) :
  run q = Raise e ->
  (search q 5 = Raise e /\ (e = ValueError \/ e = AttributeError))
  \/ (e = TypeError
      /\ exists books g,
          search q 5 = Ok books
          /\ get_gemini_recommendation w q books = Ok g
          /\ match_candidate (parse_recommended_book_title g) books
             = Raise TypeError).
Proof.
  unfold run_recommendation_workflow, workflow_body.
  destruct (search q 5) as [[|b0 books]|e0] eqn:Es; cbn [bind].
  - discriminate.
  - destruct (get_gemini_recommendation w q (b0 :: books)) as [g|e0]
      eqn:Eg; cbn [bind].
    + destruct (match_candidate (parse_recommended_book_title g)
                  (b0 :: books)) as [[b'|]|e0] eqn:Em; cbn [bind];
        try discriminate.
      assert (e0 = TypeError) as ->.
      { destruct (parse_recommended_book_title g) as [[|c t]|];
          cbn [match_candidate] in Em; try discriminate.
        apply match_loop_raise in Em. apply Em. }
      intros [= <-]. right. split; [reflexivity|].
      exists (b0 :: books), g. repeat split; assumption.
    + unfold get_gemini_recommendation in Eg.
      destruct (generate_content w _); [|discriminate].
      injection Eg as <-. discriminate.
  - destruct (@search_raise_kind _ _ _ _ _ _ Es) as [(m & ->)|[->| ->]];
      [discriminate | |]; intros [= <-]; left;
      (split; [reflexivity|]); [left | right]; reflexivity.
Qed.

End WorkflowEnds.

Lemma resolved_is_a_matching_candidate_witness :
  exists books g t,
    Examples.search' (Examples.world_of (Document Examples.two_items)
                        (Generated Examples.response_b)) (of_string "q") 5
      = Ok books
    /\ In MoreExamples.book_alchemist books
    /\ get_gemini_recommendation
         (Examples.world_of (Document Examples.two_items)
            (Generated Examples.response_b)) (of_string "q") books
       = Ok g
    /\ parse_recommended_book_title g = Some t /\ t <> []
    /\ qualifies t MoreExamples.book_alchemist
    /\ of_string "ok" = reason_of g.
Proof.
  exact (@resolved_is_a_matching_candidate decimal_float_positive
           decimal_int
           (Examples.world_of (Document Examples.two_items)
              (Generated Examples.response_b))
           (of_string "q") (of_string "ok") MoreExamples.book_alchemist
           eq_refl).
Defined.

Lemma run_raises_only_witness :
  (Examples.search'
     (Examples.world_of (Document Examples.item_without_cover)
        (Generated Examples.response_b)) (of_string "q") 5
   = Raise AttributeError
   /\ (AttributeError = ValueError \/ AttributeError = AttributeError))
  \/ (AttributeError = TypeError
      /\ exists books g,
          Examples.search'
            (Examples.world_of (Document Examples.item_without_cover)
               (Generated Examples.response_b)) (of_string "q") 5
          = Ok books
          /\ get_gemini_recommendation
               (Examples.world_of (Document Examples.item_without_cover)
                  (Generated Examples.response_b)) (of_string "q") books
             = Ok g
          /\ match_candidate (parse_recommended_book_title g) books
             = Raise TypeError).
Proof.
  exact (@run_raises_only decimal_float_positive decimal_int
           (Examples.world_of (Document Examples.item_without_cover)
              (Generated Examples.response_b))
           (of_string "q") AttributeError eq_refl).
Defined.

(** ** What the pipeline does not consult *)

Section Unconsulted.

Variable py_float_positive : pystr -> option bool.
Variable py_int : pystr -> option Z.
Variable w : world.

(** The world with another generative service. *)
Local Abbreviation with_generator gen :=
  {| item_lookup := item_lookup w; item_search := item_search w;
     generate_content := gen |}.

(** The world with another lookup endpoint. *)
Local Abbreviation with_lookup lookup :=
  {| item_lookup := lookup; item_search := item_search w;
     generate_content := generate_content w |}.

(** Unless the search returns at least one book, the run does not
    depend on the generative service: it ends the same way with any
    other one. *)
Theorem generator_unused_without_books (q : pystr)
  (gen : pystr -> gen_reply) :
  (forall b books,
      search_books_by_title py_float_positive py_int w q 5
        <> Ok (b :: books)) ->
  run_recommendation_workflow py_float_positive py_int
    (with_generator gen) q
  = run_recommendation_workflow py_float_positive py_int w q.
Proof.
  intros Hno. unfold run_recommendation_workflow, workflow_body.
  change (search_books_by_title py_float_positive py_int
            (with_generator gen) q 5)
    with (search_books_by_title py_float_positive py_int w q 5).
  destruct (search_books_by_title py_float_positive py_int w q 5)
    as [[|b books]|e]; [reflexivity | | reflexivity].
  exfalso. exact (Hno b books eq_refl).
Qed.

Lemma for_each_ext (A B : Type) (f g : A -> result B) (l : list A) :
  Forall (fun x => f x = g x) l -> for_each f l = for_each g l.
Proof.
  induction 1 as [|x l Hx _ IH]; cbn [for_each]; [reflexivity|].
  rewrite Hx, IH. reflexivity.
Qed.

(** A search whose items carry no ISBN-13 text does not depend on the
    lookup endpoint: it returns or raises the same with any other one. *)
Theorem lookup_unused_without_isbn (q : pystr) (n : Z) (root : element)
  (lookup : pystr -> pystr -> xml_reply) :
  item_search w q n = Document root ->
  Forall (fun item => truthy (isbn13_of item) = false)
    (findall "item" root) ->
  search_books_by_title py_float_positive py_int (with_lookup lookup) q n
  = search_books_by_title py_float_positive py_int w q n.
Proof.
  intros Hdoc Hall. unfold search_books_by_title.
  cbn [item_search]. rewrite Hdoc.
  destruct (findall "item" root) as [|i items] eqn:E; [reflexivity|].
  apply for_each_ext. eapply Forall_impl; [|exact Hall].
  intros item Hitem. unfold book_of_item. cbv beta in Hitem.
  destruct (isbn13_of item) as [[|c id]|];
    [reflexivity | cbn in Hitem; discriminate Hitem | reflexivity].
Qed.

End Unconsulted.

Lemma generator_unused_without_books_witness :
  Examples.run' (Examples.world_of (Document Examples.no_items)
                   (GenerateFailed (of_string "down")))
    (of_string "q")
  = Examples.run' (Examples.world_of (Document Examples.no_items)
                     (Generated Examples.response_b))
      (of_string "q").
Proof.
  apply (@generator_unused_without_books decimal_float_positive
           decimal_int
           (Examples.world_of (Document Examples.no_items)
              (Generated Examples.response_b))
           (of_string "q") (fun _ => GenerateFailed (of_string "down"))).
  discriminate.
Defined.

Lemma lookup_unused_without_isbn_witness :
  Examples.search'
    {| item_lookup := fun _ _ => RequestException (of_string "down");
       item_search := fun _ _ => Document Examples.item_without_cover;
       generate_content := fun _ => Generated Examples.response_b |}
    (of_string "q") 5
  = Examples.search'
      (Examples.world_of (Document Examples.item_without_cover)
         (Generated Examples.response_b))
      (of_string "q") 5.
Proof.
  apply (@lookup_unused_without_isbn decimal_float_positive decimal_int
           (Examples.world_of (Document Examples.item_without_cover)
              (Generated Examples.response_b))
           (of_string "q") 5%Z Examples.item_without_cover
           (fun _ _ => RequestException (of_string "down")) eq_refl).
  repeat constructor.
Defined.

(** ** What a run draws *)

Section Drawing.

Variable py_float_positive : pystr -> option bool.
Variable py_int : pystr -> option Z.
Variable w : world.

Local Abbreviation run :=
  (run_recommendation_workflow py_float_positive py_int w).
Local Abbreviation trace :=
  (run_recommendation_workflow_trace py_float_positive py_int w).
Local Abbreviation try_trace :=
  (workflow_try_trace py_float_positive py_int w).

(** An event that neither creates nor clears the bar. *)
Local Abbreviation inner e :=
  (e <> bar_empty /\ forall v t, e <> st_progress v t).

Lemma card_inner (b : book) (g : pystr) :
  Forall (fun e => inner e) (display_recommendation_card b g).
Proof.
  unfold display_recommendation_card.
  destruct (cover_url b) as [[|c u]|];
    repeat constructor; try discriminate; intros; discriminate.
Qed.

Lemma card_progress_values (b : book) (g : pystr) :
  progress_values (display_recommendation_card b g) = [].
Proof.
  unfold display_recommendation_card.
  destruct (cover_url b) as [[|c u]|]; reflexivity.
Qed.

Lemma card_messages (b : book) (g : pystr) :
  List.length (filter is_message (display_recommendation_card b g)) = 1.
Proof.
  unfold display_recommendation_card.
  destruct (cover_url b) as [[|c u]|]; reflexivity.
Qed.

Lemma try_trace_inner (q : pystr) :
  Forall (fun e => inner e) (fst (try_trace q)).
Proof.
  unfold workflow_try_trace.
  destruct (search_books_by_title _ _ w q 5) as [[|b0 books]|e];
    cbn [fst]; [repeat constructor; intros; discriminate | | constructor].
  destruct (get_gemini_recommendation w q (b0 :: books)) as [g|e];
    cbn [fst]; [|repeat constructor; intros; discriminate].
  destruct (match_candidate _ _) as [[b|]|e]; cbn [fst];
    try (repeat constructor; intros; discriminate).
  apply Forall_app. split; [|apply card_inner].
  repeat constructor; intros; discriminate.
Qed.

(** The shape of the trace: the events of the [try] block, what the
    [except] clause shows, and the [finally] clause. *)
Lemma trace_shape (q : pystr) :
  exists shown,
    fst (trace q)
    = st_progress 0 progress_text_0
        :: (fst (try_trace q) ++ shown)
        ++ [time_sleep (QArith_base.Qmake 1 2); bar_empty]
    /\ (shown = [] \/ exists m, shown = [st_error m]).
Proof.
  unfold run_recommendation_workflow_trace.
  destruct (try_trace q) as [drawn [[m|m| | |]|]]; cbn [fst];
    eexists; (split; [rewrite <- app_assoc; reflexivity|]); eauto.
Qed.

(** Whatever happens in a run, also when an exception leaves it, the
    progress bar is created first and cleared last, after a wait of
    half a second, and is neither created nor cleared in between. *)
Theorem progress_bar_always_cleared (q : pystr) :
  exists mid,
    fst (trace q)
    = st_progress 0 progress_text_0
        :: mid ++ [time_sleep (QArith_base.Qmake 1 2); bar_empty]
    /\ Forall (fun e => inner e) mid.
Proof.
  destruct (trace_shape q) as (shown & E & Hshown).
  exists (fst (try_trace q) ++ shown). split; [exact E|].
  apply Forall_app. split; [apply try_trace_inner|].
  destruct Hshown as [->|(m & ->)]; repeat constructor;
    intros; discriminate.
Qed.

(** The bar only moves forward through 0, 33, 66 and 100, and it
    reaches 100 exactly in the runs that end with the card or with the
    unmatched message. *)
Theorem progress_steps (q : pystr) :
  (progress_values (fst (trace q)) = [0]%Z
   \/ progress_values (fst (trace q)) = [0; 33]%Z
   \/ progress_values (fst (trace q)) = [0; 33; 66]%Z
   \/ progress_values (fst (trace q)) = [0; 33; 66; 100]%Z)
  /\ (progress_values (fst (trace q)) = [0; 33; 66; 100]%Z
      <-> (exists g, run q = Ok (Unmatched g))
          \/ (exists b r, run q = Ok (Resolved b r))).
Proof.
  unfold run_recommendation_workflow_trace, workflow_try_trace,
    run_recommendation_workflow, workflow_body.
  destruct (search_books_by_title _ _ w q 5) as [[|b0 books]|e];
    cbn [bind fst].
  - split; [left; reflexivity|].
    split; [discriminate | intros [(g & [=])|(b & r & [=])]].
  - destruct (get_gemini_recommendation w q (b0 :: books)) as [g|e];
      cbn [bind fst].
    + destruct (match_candidate _ _) as [[b|]|e]; cbn [bind fst].
      * match goal with
        | |- context [progress_values ?t] =>
            assert (E : progress_values t = [0; 33; 66; 100]%Z)
        end.
        { pose proof (card_progress_values b g) as Hc.
          unfold progress_values in *. cbn [flat_map app].
          rewrite !flat_map_app, Hc. reflexivity. }
        rewrite E. split; [auto|]. split; [|reflexivity].
        intros _. right. eauto.
      * split; [right; right; right; reflexivity|].
        split; [|reflexivity]. intros _. left. eauto.
      * split; [right; right; left; destruct e; reflexivity|].
        split; [destruct e; discriminate|].
        destruct e; intros [(g' & [=])|(b & r & [=])].
    + split; [right; left; destruct e; reflexivity|].
      split; [destruct e; discriminate|].
      destruct e; intros [(g' & [=])|(b & r & [=])].
  - split; [left; destruct e; reflexivity|].
    split; [destruct e; discriminate|].
    destruct e; intros [(g' & [=])|(b & r & [=])].
Qed.

(** A run that returns has shown exactly one message, an error box or
    the balloons of the card; a run that an exception leaves has shown
    none. *)
Theorem one_message_per_run (q : pystr) :
  List.length (filter is_message (fst (trace q)))
  = match snd (trace q) with
    | None => 1
    | Some _ => 0
    end.
Proof.
  unfold run_recommendation_workflow_trace, workflow_try_trace.
  destruct (search_books_by_title _ _ w q 5) as [[|b0 books]|e];
    cbn [fst snd]; [reflexivity | | destruct e; reflexivity].
  destruct (get_gemini_recommendation w q (b0 :: books)) as [g|e];
    cbn [fst snd]; [|destruct e; reflexivity].
  destruct (match_candidate _ _) as [[b|]|e]; cbn [fst snd];
    [|reflexivity | destruct e; reflexivity].
  cbn [app filter is_message]. rewrite !filter_app, !length_app.
  rewrite card_messages. reflexivity.
Qed.

(** The trace and the outcome of a run agree: the same exception leaves
    both, and a run that returns has drawn what its outcome says: the
    "no results" message naming the query, the error message, the
    generated text as a code block after the unmatched message, or the
    whole card of the resolved book with its rationale. *)
Theorem trace_agrees_with_outcome (q : pystr) :
  match run q with
  | Raise e => snd (trace q) = Some e
  | Ok t =>
      snd (trace q) = None
      /\ match t with
         | NoResults q' =>
             In (st_error (no_results_head ++ q' ++ no_results_tail))
               (fst (trace q))
         | Error m => In (st_error m) (fst (trace q))
         | Unmatched g =>
             exists before after,
               fst (trace q)
               = before ++ [st_error unmatched_msg;
                            st_write (Some raw_response_label);
                            st_code g] ++ after
         | Resolved b r =>
             exists g before after,
               r = reason_of g
               /\ fst (trace q)
                  = before ++ display_recommendation_card b g ++ after
         end
  end.
Proof.
  unfold run_recommendation_workflow_trace, workflow_try_trace,
    run_recommendation_workflow, workflow_body.
  destruct (search_books_by_title _ _ w q 5) as [[|b0 books]|e];
    cbn [bind fst snd].
  - split; [reflexivity|]. right. left. reflexivity.
  - destruct (get_gemini_recommendation w q (b0 :: books)) as [g|e];
      cbn [bind fst snd].
    + destruct (match_candidate _ _) as [[b|]|e]; cbn [bind fst snd].
      * split; [reflexivity|].
        exists g. eexists (_ :: [_; _; _; _]). eexists.
        split; [reflexivity|].
        cbn [app]. reflexivity.
      * split; [reflexivity|].
        eexists (_ :: [_; _; _; _]). eexists. reflexivity.
      * destruct e; try reflexivity;
          (split; [reflexivity|]); cbn; auto 10.
    + destruct e; try reflexivity;
        (split; [reflexivity|]); cbn; auto 10.
  - destruct e; try reflexivity;
      (split; [reflexivity|]); cbn; auto 10.
Qed.

End Drawing.

(** ** The background image and the page *)

Section PageFacts.

Variable py_float_positive : pystr -> option bool.
Variable py_int : pystr -> option Z.
Variable w : world.
Variable s : session.

Local Abbreviation trace :=
  (run_recommendation_workflow_trace py_float_positive py_int w).
Local Abbreviation page := (main py_float_positive py_int w s).

Lemma b64_char_symbol (n : N) : (n < 64)%N -> b64_symbol (b64_char n).
Proof.
  intros H. left. unfold b64_char. apply nth_In.
  change (List.length b64_alphabet) with 64. lia.
Qed.

Lemma b64_pad_symbol : b64_symbol b64_pad.
Proof. right. reflexivity. Qed.

Lemma quote_is_no_symbol : ~ b64_symbol 34%N.
Proof.
  intros [H|H]; [|discriminate H].
  assert (E : existsb (N.eqb 34) b64_alphabet = true).
  { apply existsb_exists. exists 34%N. split; [exact H | reflexivity]. }
  vm_compute in E. discriminate E.
Qed.

Lemma sextet_a (a : N) : (a <= 255 -> a / 4 < 64)%N.
Proof. intros H. apply N.Div0.div_lt_upper_bound. lia. Qed.

Lemma sextet_ab (a b : N) : (b <= 255 -> a mod 4 * 16 + b / 16 < 64)%N.
Proof.
  intros H. pose proof (N.mod_lt a 4 ltac:(discriminate)).
  assert (b / 16 < 16)%N by (apply N.Div0.div_lt_upper_bound; lia). lia.
Qed.

Lemma sextet_bc (b c : N) : (c <= 255 -> b mod 16 * 4 + c / 64 < 64)%N.
Proof.
  intros H. pose proof (N.mod_lt b 16 ltac:(discriminate)).
  assert (c / 64 < 4)%N by (apply N.Div0.div_lt_upper_bound; lia). lia.
Qed.

Lemma sextet_a_end (a : N) : (a mod 4 * 16 < 64)%N.
Proof. pose proof (N.mod_lt a 4 ltac:(discriminate)). lia. Qed.

Lemma sextet_b_end (b : N) : (b mod 16 * 4 < 64)%N.
Proof. pose proof (N.mod_lt b 16 ltac:(discriminate)). lia. Qed.

Lemma sextet_c (c : N) : (c mod 64 < 64)%N.
Proof. apply N.mod_lt. discriminate. Qed.

Ltac sextet :=
  first [ apply sextet_a; assumption
        | apply sextet_ab; assumption
        | apply sextet_bc; assumption
        | apply sextet_a_end
        | apply sextet_b_end
        | apply sextet_c ].

Ltac b64_symbols :=
  repeat (apply Forall_cons;
          [lazymatch goal with
           | |- b64_symbol (b64_char _) => apply b64_char_symbol; sextet
           | |- b64_symbol b64_pad => apply b64_pad_symbol
           end|]);
  try apply Forall_nil.

Lemma b64encode_upto (n : nat) (data : list Byte.byte) :
  List.length data <= n ->
  Forall b64_symbol (b64encode data)
  /\ List.length (b64encode data) = 4 * ((List.length data + 2) / 3).
Proof.
  revert data. induction n as [n IH] using lt_wf_ind. intros data Hlen.
  destruct data as [|x [|y [|z rest]]].
  - split; [constructor | reflexivity].
  - pose proof (Byte.to_N_bounded x).
    split; [|reflexivity]. cbn [b64encode]. cbv zeta. b64_symbols.
  - pose proof (Byte.to_N_bounded x). pose proof (Byte.to_N_bounded y).
    split; [|reflexivity]. cbn [b64encode]. cbv zeta. b64_symbols.
  - pose proof (Byte.to_N_bounded x). pose proof (Byte.to_N_bounded y).
    pose proof (Byte.to_N_bounded z).
    cbn [List.length] in Hlen.
    destruct (IH (List.length rest) ltac:(lia) rest (Nat.le_refl _))
      as [Hsym Hl].
    cbn [b64encode]. cbv zeta. split.
    + apply Forall_app. split; [|exact Hsym]. b64_symbols.
    + rewrite length_app, Hl. cbn [List.length].
      replace (S (S (S (List.length rest))) + 2)
        with (1 * 3 + (List.length rest + 2)) by lia.
      rewrite Nat.div_add_l by discriminate. lia.
Qed.

Lemma b64_char_spec (v : N) : (v < 64)%N -> b64_char v = b64_symbol_of v.
Proof.
  intros Hv.
  assert (Hall : forallb
                   (fun k => (b64_char (N.of_nat k)
                              =? b64_symbol_of (N.of_nat k))%N)
                   (seq 0 64) = true) by (vm_compute; reflexivity).
  rewrite forallb_forall in Hall.
  specialize (Hall (N.to_nat v)). rewrite N2Nat.id in Hall.
  apply N.eqb_eq, Hall, in_seq. lia.
Qed.

Lemma b64encode_Base64_upto (n : nat) (data : list Byte.byte) :
  List.length data <= n -> Base64 data (b64encode data).
Proof.
  revert data. induction n as [n IH] using lt_wf_ind. intros data Hlen.
  destruct data as [|x [|y [|z rest]]].
  - constructor.
  - pose proof (Byte.to_N_bounded x) as Hx.
    cbn [b64encode]. cbv zeta.
    rewrite !b64_char_spec by sextet.
    apply base64_one; try sextet.
    pose proof (N.div_mod' (Byte.to_N x) 4). lia.
  - pose proof (Byte.to_N_bounded x) as Hx.
    pose proof (Byte.to_N_bounded y) as Hy.
    cbn [b64encode]. cbv zeta.
    rewrite !b64_char_spec by sextet.
    apply base64_two; try sextet.
    pose proof (N.div_mod' (Byte.to_N x) 4).
    pose proof (N.div_mod' (Byte.to_N y) 16). lia.
  - pose proof (Byte.to_N_bounded x) as Hx.
    pose proof (Byte.to_N_bounded y) as Hy.
    pose proof (Byte.to_N_bounded z) as Hz.
    cbn [List.length] in Hlen.
    cbn [b64encode app]. cbv zeta.
    rewrite !b64_char_spec by sextet.
    apply base64_three; try sextet.
    + pose proof (N.div_mod' (Byte.to_N x) 4).
      pose proof (N.div_mod' (Byte.to_N y) 16).
      pose proof (N.div_mod' (Byte.to_N z) 64). lia.
    + apply (IH (List.length rest)); lia.
Qed.

(** The background step tolerates a missing file only.  A missing file
    gives the notice and no exception; a file that is read gives one
    style block whose data URL holds the base64 text of the file's
    bytes: four symbols for every three bytes begun, nothing but base64
    symbols, so that no byte of the file can close the quoted URL; any
    other read failure leaves the function with nothing drawn. *)
Theorem background_is_drawn_or_noted (path : pystr) :
  (open_rb s path = ReadFailed FileNotFoundError ->
   set_page_background s path
   = ([st_info background_missing_msg None], None))
  /\ (forall data,
         open_rb s path = FileContents data ->
         exists b64,
           set_page_background s path
           = ([st_markdown (background_style_head ++ b64
                              ++ background_style_tail) true], None)
           /\ Base64 data b64
           /\ Forall b64_symbol b64
           /\ ~ In 34%N b64
           /\ List.length b64 = 4 * ((List.length data + 2) / 3))
  /\ (forall c,
         open_rb s path = ReadFailed (OtherOSError c) ->
         set_page_background s path = ([], Some (OtherOSError c))).
Proof.
  unfold set_page_background, get_base64_of_bin_file.
  split; [|split].
  - intros ->. reflexivity.
  - intros data ->. exists (b64encode data).
    destruct (@b64encode_upto _ data (Nat.le_refl _)) as [Hsym Hl].
    repeat split; [| exact Hsym | | exact Hl].
    + exact (@b64encode_Base64_upto _ data (Nat.le_refl _)).
    + intros Hin. rewrite Forall_forall in Hsym.
      exact (quote_is_no_symbol (Hsym _ Hin)).
  - intros c ->. reflexivity.
Qed.

(** Without both keys, or when [genai.configure] fails, [main] shows
    one error and stops: it draws nothing else, reads no file and runs
    no workflow, whatever the form holds. *)
Theorem main_stops_without_keys :
  keys_ready s = false ->
  exists msg, page = ([st_error msg; st_stop], Stopped).
Proof.
  unfold keys_ready, main.
  destruct (ALADIN_TTBKEY s) as [[|a ka]|];
    try (intros _; eexists; reflexivity).
  destruct (GENAI_API_KEY s) as [[|g kg]|];
    try (intros _; eexists; reflexivity).
  destruct (genai_configure s (g :: kg));
    [intros _; eexists; reflexivity | discriminate].
Qed.

Lemma trace_starts_with_bar (q : pystr) :
  exists rest, fst (trace q) = st_progress 0 progress_text_0 :: rest.
Proof.
  destruct (trace_shape py_float_positive py_int w q) as (shown & E & _).
  eexists. exact E.
Qed.

Ltac no_bar := cbn [fst In app]; intuition discriminate.

(** [main] starts the workflow, which creates the progress bar, exactly
    when the keys are ready, the background file is read or merely
    missing, the form was submitted and the input is not empty. *)
Theorem main_runs_workflow_iff :
  In (st_progress 0 progress_text_0) (fst page)
  <-> keys_ready s = true
      /\ (forall c,
             open_rb s background_file <> ReadFailed (OtherOSError c))
      /\ form_submit_button s = true
      /\ text_input s <> [].
Proof.
  unfold keys_ready, main.
  destruct (ALADIN_TTBKEY s) as [[|a ka]|]; try no_bar.
  destruct (GENAI_API_KEY s) as [[|g kg]|]; try no_bar.
  destruct (genai_configure s (g :: kg)); [no_bar|].
  unfold set_page_background, get_base64_of_bin_file.
  destruct (open_rb s background_file) as [[|c]|data] eqn:Eopen.
  - destruct (form_submit_button s); [|no_bar].
    destruct (text_input s) as [|x input] eqn:Ein; [no_bar|].
    destruct (trace (x :: input)) as [drawn escaped] eqn:Et.
    destruct (trace_starts_with_bar (x :: input)) as (rest & Er).
    rewrite Et in Er. cbn [fst] in Er. subst drawn.
    split; [intros _|intros _; cbn [fst In app]; auto 10].
    repeat split; discriminate.
  - split; [intros []|]. intros (_ & H & _). exfalso.
    exact (H c eq_refl).
  - destruct (form_submit_button s); [|no_bar].
    destruct (text_input s) as [|x input] eqn:Ein; [no_bar|].
    destruct (trace (x :: input)) as [drawn escaped] eqn:Et.
    destruct (trace_starts_with_bar (x :: input)) as (rest & Er).
    rewrite Et in Er. cbn [fst] in Er. subst drawn.
    split; [intros _|intros _; cbn [fst In app]; auto 10].
    repeat split; discriminate.
Qed.

End PageFacts.

(** The runs of the two page theorems with a hypothesis: the three
    bytes "Man" as background file, and the session without the catalog
    key. *)
Lemma background_is_drawn_or_noted_witness :
  exists b64,
    set_page_background MoreExamples.session_ready background_file
    = ([st_markdown (background_style_head ++ b64
                       ++ background_style_tail) true], None)
    /\ Base64 [Byte.x4d; Byte.x61; Byte.x6e] b64
    /\ Forall b64_symbol b64
    /\ ~ In 34%N b64
    /\ List.length b64 = 4.
Proof.
  exact (proj1 (proj2 (@background_is_drawn_or_noted
                         MoreExamples.session_ready background_file))
           [Byte.x4d; Byte.x61; Byte.x6e] eq_refl).
Defined.

Lemma main_stops_without_keys_witness :
  exists msg,
    main decimal_float_positive decimal_int MoreExamples.world_b
      MoreExamples.session_without_key
    = ([st_error msg; st_stop], Stopped).
Proof.
  exact (@main_stops_without_keys decimal_float_positive decimal_int
           MoreExamples.world_b MoreExamples.session_without_key eq_refl).
Defined.
